(** * Gemini-Transcriber: transcript assembly and subtitle synthesis

    A shallow embedding of [app.py]: the segmenter ([split_audio]), the
    per-segment transcription loop of [transcribe], the timestamp parser
    ([parse_timestamp]), the repetition filter ([detect_repetition_pattern],
    [is_valid_text]) and the subtitle normaliser and renderer ([format_srt],
    [format_srt_timestamp]).

    Conventions.
    - A Python [str] is a [string]; each [ascii] stands for the code point of
      the same number, so the embedding covers text over U+0000..U+00FF.
    - A Python [int] is a [Z]; [//] and [%] by a positive constant are
      [Z.div] and [Z.modulo].
    - A Python [set] is a [gset].
    - A Python float (only the quotient inside [math.ceil] in [split_audio])
      is a [spec_float] at binary64 precision, and the division is [SFdiv].
    - A call that may raise returns an [option]; [None] is the exception.
    - The outside world is kept out: the audio is its decoded length in
      milliseconds, the transcription service is a function from the segment
      file and the prompt to an exception or a text, and the files written
      are the strings returned. *)

From Stdlib Require Import ZArith Ascii String List Lia Bool.
From Stdlib Require Import DecimalString DecimalPos DecimalZ DecimalFacts.
From Stdlib Require Import Floats.SpecFloat.
From stdpp Require Import base decidable option list gmap strings.

Local Open Scope Z_scope.

(** ** Python string primitives *)

Module Py.

(** [str.isspace] on one character, for code points below 256: the ASCII
    controls TAB..CR and FS..US, the space, NEL and the no-break space. *)
Definition isspace (c : ascii) : bool :=
  let n := N_of_ascii c in
  ((9 <=? n)%N && (n <=? 13)%N) || ((28 <=? n)%N && (n <=? 32)%N)
  || (n =? 133)%N || (n =? 160)%N.

Definition ascii_eqb (a b : ascii) : bool := Ascii.eqb a b.

Fixpoint to_list (s : string) : list ascii :=
  match s with
  | EmptyString => []
  | String c s' => c :: to_list s'
  end.

Fixpoint of_list (l : list ascii) : string :=
  match l with
  | [] => EmptyString
  | c :: l' => String c (of_list l')
  end.

(** [len(s)] *)
Definition len (s : string) : Z := Z.of_nat (String.length s).

(** truthiness of a string: [if s] *)
Definition truthy (s : string) : bool :=
  match s with EmptyString => false | _ => true end.

(** [c in s] for a one-character needle *)
Fixpoint contains (c : ascii) (s : string) : bool :=
  match s with
  | EmptyString => false
  | String d s' => ascii_eqb c d || contains c s'
  end.

(** [s.find(c)] for a one-character needle: the first index, or -1 *)
Fixpoint find (c : ascii) (s : string) : Z :=
  match s with
  | EmptyString => -1
  | String d s' =>
      if ascii_eqb c d then 0
      else let r := find c s' in if r <? 0 then -1 else r + 1
  end.

Fixpoint drop (n : nat) (s : string) : string :=
  match n, s with
  | O, _ => s
  | S n', String _ s' => drop n' s'
  | S _, EmptyString => EmptyString
  end.

Fixpoint take (n : nat) (s : string) : string :=
  match n, s with
  | S n', String c s' => String c (take n' s')
  | _, _ => EmptyString
  end.

(** a slice bound as Python normalises it: negative bounds count from the
    end, and every bound is clamped to [0, len] *)
Definition slice_bound (s : string) (i : Z) : Z :=
  if i <? 0 then Z.max 0 (i + len s) else Z.min i (len s).

(** [s[lo:hi]] *)
Definition slice (s : string) (lo hi : Z) : string :=
  let a := slice_bound s lo in
  let b := slice_bound s hi in
  take (Z.to_nat (b - a)) (drop (Z.to_nat a) s).

(** [s[lo:]] *)
Definition slice_from (s : string) (lo : Z) : string :=
  drop (Z.to_nat (slice_bound s lo)) s.

Fixpoint dropwhile (p : ascii -> bool) (s : string) : string :=
  match s with
  | EmptyString => EmptyString
  | String c s' => if p c then dropwhile p s' else s
  end.

Definition rev (s : string) : string := of_list (List.rev (to_list s)).

Definition strip_with (p : ascii -> bool) (s : string) : string :=
  rev (dropwhile p (rev (dropwhile p s))).

(** [s.strip()] *)
Definition strip (s : string) : string := strip_with isspace s.

(** [s.strip(chars)] *)
Definition strip_chars (chars : string) (s : string) : string :=
  strip_with (fun c => contains c chars) s.

(** [s.replace(c, "")] for a one-character pattern *)
Fixpoint remove_char (c : ascii) (s : string) : string :=
  match s with
  | EmptyString => EmptyString
  | String d s' =>
      if ascii_eqb c d then remove_char c s' else String d (remove_char c s')
  end.

(** [s.split(sep)] for a one-character separator: never empty *)
Fixpoint split_on (sep : ascii) (s : string) : list string :=
  match s with
  | EmptyString => [EmptyString]
  | String c s' =>
      if ascii_eqb sep c then EmptyString :: split_on sep s'
      else match split_on sep s' with
           | w :: ws => String c w :: ws
           | [] => [String c EmptyString]
           end
  end.

Definition push_word (w : string) (ws : list string) : list string :=
  match w with EmptyString => ws | _ => w :: ws end.

(** the word being read at the front of [s], and the words after it *)
Fixpoint split_scan (s : string) : string * list string :=
  match s with
  | EmptyString => (EmptyString, [])
  | String c s' =>
      let '(w, ws) := split_scan s' in
      if isspace c then (EmptyString, push_word w ws) else (String c w, ws)
  end.

(** [s.split()]: the maximal runs of non-whitespace characters *)
Definition split (s : string) : list string :=
  let '(w, ws) := split_scan s in push_word w ws.

(** [sep.join(parts)] *)
Fixpoint join (sep : string) (parts : list string) : string :=
  match parts with
  | [] => EmptyString
  | [p] => p
  | p :: rest => p +:+ sep +:+ join sep rest
  end.

(** [str(n)] and [f"{n}"] for an int of at most 4300 digits
    ([sys.get_int_max_str_digits()]), that is below [10 ^ 4300] in absolute
    value.  For a larger int Python raises ValueError, and this function
    still gives the digits: it is total, and the statements that depend on
    what is written carry the bound.  The program stays within it:
    [split_audio] and [get_segment_prompt] write numbers below 2^1024, the
    largest count a float holds, and the loop of [format_srt] stays below
    the bound as well ([pass_writes_within_limit]). *)
Definition str_of_int (n : Z) : string := NilZero.string_of_int (Z.to_int n).

(** [f"{n:02d}"]: sign-aware zero padding to width 2 *)
Definition format_02d (n : Z) : string :=
  let s := str_of_int n in
  if (String.length s <? 2)%nat then "0" +:+ s else s.

Definition digit_value (c : ascii) : option Z :=
  let n := N_of_ascii c in
  if ((48 <=? n)%N && (n <=? 57)%N) then Some (Z.of_N n - 48) else None.

(** the digits of an int literal after its sign: decimal digits, single
    underscores allowed between digits only; [acc] is the value so far and
    [prev_digit] tells whether the previous character was a digit *)
Fixpoint int_digits (s : string) (acc : Z) (prev_digit : bool) : option Z :=
  match s with
  | EmptyString => if prev_digit then Some acc else None
  | String c s' =>
      match digit_value c with
      | Some d => int_digits s' (10 * acc + d) true
      | None =>
          if ascii_eqb c "_" && prev_digit then int_digits s' acc false
          else None
      end
  end.

(** whitespace that [int] skips around the literal: the C [isspace] set plus
    the non-ASCII spaces (which CPython first rewrites to a blank) *)
Definition int_space (c : ascii) : bool :=
  let n := N_of_ascii c in
  ((9 <=? n)%N && (n <=? 13)%N) || (n =? 32)%N || (n =? 133)%N || (n =? 160)%N.

(** the default of [sys.get_int_max_str_digits()] *)
Definition int_max_str_digits : Z := 4300.

(** the number of digit characters of a literal: underscores do not count,
    leading zeros do *)
Fixpoint count_digits (s : string) : Z :=
  match s with
  | EmptyString => 0
  | String c s' =>
      (match digit_value c with Some _ => 1 | None => 0 end) + count_digits s'
  end.

(** an int literal after its sign: a literal of more than
    [int_max_str_digits] digits is refused *)
Definition int_literal (s : string) : option Z :=
  if count_digits s <=? int_max_str_digits then int_digits s 0 false else None.

(** [int(s)] in base 10; [None] stands for ValueError. *)
Definition int (s : string) : option Z :=
  match strip_with int_space s with
  | String "-" s' => Z.opp <$> int_literal s'
  | String "+" s' => int_literal s'
  | s' => int_literal s'
  end.

End Py.

(** ** The repetition filter *)

(** [len(set(xs)) == 1] *)
Definition one_distinct `{Countable A} (xs : list A) : bool :=
  bool_decide (size (list_to_set xs : gset A) = 1%nat).

(** [words[i:i+2]] joined by a blank, for [i] in [range(0, len(words)-1)] *)
Fixpoint word_pairs (words : list string) : list string :=
  match words with
  | w1 :: ((w2 :: _) as rest) => Py.join " " [w1; w2] :: word_pairs rest
  | _ => []
  end.

(** [detect_repetition_pattern] (app.py, lines 101-124) *)
Definition detect_repetition_pattern (text : string) : bool :=
  if negb (Py.truthy text) then true
  else
    let chars := Py.remove_char " " text in
    if (2 <? Py.len chars) && one_distinct (Py.to_list chars) then true
    else
      let words := Py.split text in
      if (2 <? Z.of_nat (length words)) then
        if one_distinct words then true
        else if (4 <? Z.of_nat (length words)) then
          if one_distinct (word_pairs words) then true else false
        else false
      else false.

(** [is_valid_text] (app.py, lines 126-143) *)
Definition is_valid_text (text : string) (seen_texts : gset string)
    (last_text : string) : bool :=
  if negb (Py.truthy text) then false
  else if detect_repetition_pattern text then false
  else if bool_decide (text ∈ seen_texts) then false
  else if bool_decide (text = last_text) then false
  else true.

(** ** Timestamps *)

(** [parse_timestamp] (app.py, lines 86-92): the two fields are unpacked from [map(int, ...)], so
    the call succeeds exactly when the split has two fields and [int] accepts
    both; every exception is caught and turned into [None]. *)
Definition parse_timestamp (timestamp_str : string) : option Z :=
  match Py.split_on ":" (Py.strip_chars "[]" timestamp_str) with
  | [f1; f2] =>
      match Py.int f1, Py.int f2 with
      | Some mm, Some ss => Some (mm * 60 + ss)
      | _, _ => None
      end
  | _ => None
  end.

(** [format_srt_timestamp] (app.py, lines 94-99) *)
Definition format_srt_timestamp (seconds : Z) : string :=
  let hours := seconds / 3600 in
  let minutes := (seconds mod 3600) / 60 in
  let secs := seconds mod 60 in
  Py.format_02d hours +:+ ":" +:+ Py.format_02d minutes +:+ ":"
    +:+ Py.format_02d secs +:+ ",000".

(** ** The subtitle normaliser: [format_srt] (app.py, lines 145-191) *)

(** What one appended element of [entries] is built from: the counter, the
    two times and the text.  The source appends the rendered block at once;
    here the block is rendered from the record by [render_entry]. *)
Record SubtitleEntry := mkEntry {
  index : Z;
  start_seconds : Z;
  end_seconds : Z;
  text : string
}.

(** The local variables of [format_srt] that live across iterations. *)
Record norm_state := mkState {
  entries : list SubtitleEntry;
  seen_timestamps : gset Z;
  seen_texts : gset string;
  current_entry : Z;
  last_end_time : Z;
  last_text : string
}.

(** Their values before the loop (lines 147-152). *)
Definition init_state : norm_state :=
  {| entries := [];
     seen_timestamps := ∅;
     seen_texts := ∅;
     current_entry := 1;
     last_end_time := 0;
     last_text := "" |}.

(** the character and the string ['\n'] *)
Definition nl : ascii := "010"%char.
Definition newline : string := String nl EmptyString.

(** [line[line.find('['): line.find(']') + 1]] *)
Definition timestamp_part (line : string) : string :=
  Py.slice line (Py.find "[" line) (Py.find "]" line + 1).

(** [line[line.find(']') + 1:].strip()] *)
Definition line_text (line : string) : string :=
  Py.strip (Py.slice_from line (Py.find "]" line + 1)).

(** [not line.strip() or '[' not in line] *)
Definition skipped_line (line : string) : bool :=
  negb (Py.truthy (Py.strip line)) || negb (Py.contains "[" line).

(** [start_time in seen_timestamps] *)
Definition timestamp_seen (st : norm_state) (t : Z) : bool :=
  bool_decide (t ∈ seen_timestamps st).

(** The tail of the loop body, from the clamp to the last assignment
    (lines 172-186). *)
Definition accept_line (st : norm_state) (t : Z) (txt : string) : norm_state :=
  let start_time := Z.max t (last_end_time st + 1) in
  let end_time := start_time + 3 in
  {| entries := entries st ++ [mkEntry (current_entry st) start_time end_time txt];
     seen_timestamps := seen_timestamps st ∪ {[start_time]};
     seen_texts := seen_texts st ∪ {[txt]};
     current_entry := current_entry st + 1;
     last_end_time := end_time;
     last_text := txt |}.

(** One iteration of the loop (lines 154-189).  Every [continue] returns the state it was
    given.  [find], slicing and [strip] are total and [parse_timestamp]
    catches its own exceptions; [format_srt_timestamp] and
    [f"{current_entry}"] raise only on a number of more than 4300 digits,
    which no text of fewer than [10 ^ 4300] lines brings about
    ([pass_writes_within_limit]).  So the [except] branch has no case of its
    own. *)
Definition process_line (st : norm_state) (line : string) : norm_state :=
  if skipped_line line then st
  else
    let txt := line_text line in
    if negb (is_valid_text txt (seen_texts st) (last_text st)) then st
    else
      match parse_timestamp (timestamp_part line) with
      | None => st
      | Some t => if timestamp_seen st t then st else accept_line st t txt
      end.

(** The loop over a list of lines, from the initial state. *)
Definition run_lines (lines : list string) : norm_state :=
  fold_left process_line lines init_state.

(** The loop of [format_srt] over [timestamps_text.split('\n')]. *)
Definition normalize (timestamps_text : string) : norm_state :=
  run_lines (Py.split_on nl timestamps_text).

(** The block appended for an entry (line 181). *)
Definition render_entry (e : SubtitleEntry) : string :=
  Py.str_of_int (index e) +:+ newline
    +:+ format_srt_timestamp (start_seconds e) +:+ " --> "
    +:+ format_srt_timestamp (end_seconds e) +:+ newline
    +:+ text e +:+ newline.

(** [format_srt]: the blocks joined by a newline (line 191). *)
Definition format_srt (timestamps_text : string) : string :=
  Py.join newline (map render_entry (entries (normalize timestamps_text))).

(** ** The segmenter: [split_audio] (app.py, lines 47-71) *)

(** An int as the operand of a true division: value [n * 2^0], exact. *)
Definition float_of_int (n : Z) : spec_float :=
  match n with
  | Z0 => S754_zero false
  | Zpos p => S754_finite false p 0
  | Zneg p => S754_finite true p 0
  end.

(** [a / b] on ints: the quotient rounded once to the nearest binary64,
    ties to even.  [None] stands for ZeroDivisionError ([b = 0]) and for
    OverflowError (a quotient beyond the binary64 range). *)
Definition true_divide (a b : Z) : option spec_float :=
  if b =? 0 then None
  else
    match SFdiv 53 1024 (float_of_int a) (float_of_int b) with
    | S754_infinity _ | S754_nan => None
    | q => Some q
    end.

(** [math.ceil(x)] on a float; it raises on an infinity or a NaN. *)
Definition math_ceil (x : spec_float) : option Z :=
  match x with
  | S754_zero _ => Some 0
  | S754_finite s m e =>
      let v := if s then Zneg m else Zpos m in
      Some (if 0 <=? e then v * 2 ^ e else - ((- v) / 2 ^ (- e)))
  | _ => None
  end.

(** [math.ceil(length_ms / segment_duration)] *)
Definition num_segments (length_ms segment_duration : Z) : option Z :=
  true_divide length_ms segment_duration ≫= math_ceil.

(** [range(n)] *)
Definition range (n : Z) : list Z := Z.of_nat <$> seq 0 (Z.to_nat n).

(** One element of [segments].  The dict of the source holds [path] and
    [start_time]; [slice_start] and [slice_end] are the bounds of the slice
    [audio[start:end]] that was exported to [path]. *)
Record segment := mkSegment {
  path : string;
  start_time : Z;
  slice_start : Z;
  slice_end : Z
}.

(** The body of the loop of [split_audio] for index [i]. *)
Definition make_segment (length_ms segment_duration i : Z) : segment :=
  let start := i * segment_duration in
  let end_ := Z.min ((i + 1) * segment_duration) length_ms in
  {| path := "output/temp_segment_" +:+ Py.str_of_int i +:+ ".mp3";
     start_time := start / 1000;
     slice_start := start;
     slice_end := end_ |}.

(** [split_audio], from the length of the decoded audio on.  [None] stands
    for an exception leaving the function. *)
Definition split_audio (length_ms segment_duration : Z) : option (list segment) :=
  n ← num_segments length_ms segment_duration;
  Some (make_segment length_ms segment_duration <$> range n).

(** ** The transcription loop: [transcribe] (app.py, lines 196-248) *)

(** [get_segment_prompt] (app.py, lines 73-84) *)
Definition get_segment_prompt (start_time : Z) : string :=
  let minutes := start_time / 60 in
  "Generate a transcript for this audio segment. "
  +:+ "Use the format [MM:SS] for timestamps, starting from "
  +:+ "minute " +:+ Py.str_of_int minutes +:+ ". Add timestamps every 3-5 seconds. "
  +:+ "Format each line as: [MM:SS] Text content. "
  +:+ "Only transcribe actual speech - do not generate placeholder content. "
  +:+ "If there is silence or no clear speech, skip that section. "
  +:+ "Each transcribed line must contain meaningful content.".

(** What the three service calls of one iteration ([upload_file],
    [generate_content], [response.text]) come to: an exception, or the text
    of the response. *)
Inductive response :=
  | Raises
  | Returns (response_text : string).

(** What [transcribe] hands back: the upload prompt, the error message of
    the outer handler, or the contents written to the two files (the
    transcript is also the preview). *)
Inductive job_result :=
  | NoFile
  | JobError
  | JobDone (transcript srt_content : string).

Section Transcribe.

(** The external service, as seen from the loop: what the calls for the
    segment stored at a path, with a prompt, come to.  The removal of the
    segment file in the [finally] clause is taken to succeed. *)
Variable service : string → string → response.

(** One iteration of the loop over [segments] (lines 206-226). *)
Definition transcribe_segment (all_transcripts : list string) (seg : segment)
    : list string :=
  match service (path seg) (get_segment_prompt (start_time seg)) with
  | Returns response_text =>
      if Py.truthy (Py.strip response_text)
      then all_transcripts ++ [response_text]
      else all_transcripts
  | Raises => all_transcripts
  end.

(** The list [all_transcripts] after the loop. *)
Definition transcribe_segments (segments : list segment) : list string :=
  fold_left transcribe_segment segments [].

(** [transcribe], with the audio given by its length once decoded. *)
Definition transcribe (audio_file : option Z) : job_result :=
  match audio_file with
  | None => NoFile
  | Some length_ms =>
      match split_audio length_ms 300000 with
      | None => JobError
      | Some segments =>
          let transcript := Py.join newline (transcribe_segments segments) in
          let srt_content := format_srt transcript in
          JobDone transcript srt_content
      end
  end.

(** A segment contributes nothing: one of its calls raises, or the text of
    the response is blank. *)
Definition chunk_fails (seg : segment) : Prop :=
  service (path seg) (get_segment_prompt (start_time seg)) = Raises ∨
  ∃ r, service (path seg) (get_segment_prompt (start_time seg)) = Returns r ∧
       Py.truthy (Py.strip r) = false.

End Transcribe.

(** ** Notions used in the statements *)

(** A service for the examples: the second of the segments fails, the
    others answer one line each. *)
Definition sample_service (path prompt : string) : response :=
  if bool_decide (path = "output/temp_segment_0.mp3") then Returns "[00:05] one"
  else if bool_decide (path = "output/temp_segment_1.mp3") then Raises
  else if bool_decide (path = "output/temp_segment_2.mp3") then Returns "[10:05] three"
  else if bool_decide (path = "output/temp_segment_3.mp3") then Returns "[15:05] four"
  else Returns "[20:05] five".

(** the value of a string of decimal digits read after the value [acc] *)
Fixpoint uint_value (d : Decimal.uint) (acc : Z) : Z :=
  match d with
  | Decimal.Nil => acc
  | Decimal.D0 d => uint_value d (10 * acc)
  | Decimal.D1 d => uint_value d (10 * acc + 1)
  | Decimal.D2 d => uint_value d (10 * acc + 2)
  | Decimal.D3 d => uint_value d (10 * acc + 3)
  | Decimal.D4 d => uint_value d (10 * acc + 4)
  | Decimal.D5 d => uint_value d (10 * acc + 5)
  | Decimal.D6 d => uint_value d (10 * acc + 6)
  | Decimal.D7 d => uint_value d (10 * acc + 7)
  | Decimal.D8 d => uint_value d (10 * acc + 8)
  | Decimal.D9 d => uint_value d (10 * acc + 9)
  end.

(** a character is a decimal digit *)
Definition is_digit (c : ascii) : Prop := is_Some (Py.digit_value c).

(** every character of a string satisfies, or fails, a test *)
Definition all_chars (p : ascii → bool) (s : string) : Prop :=
  Forall (λ c, p c = true) (Py.to_list s).
Definition no_chars (p : ascii → bool) (s : string) : Prop :=
  Forall (λ c, p c = false) (Py.to_list s).

(** a word holds no blank *)
Definition no_blank (w : string) : Prop := " "%char ∉ Py.to_list w.

(** exact ceiling of a quotient of positive integers *)
Definition ceil_div (a b : Z) : Z := (a + b - 1) / b.

(** [ceil (m * 2^e)] for an integer mantissa [m] *)
Definition ceil_scaled (m e : Z) : Z :=
  if 0 <=? e then m * 2 ^ e else - ((- m) / 2 ^ (- e)).

(** where a remainder [r2], counted in halves of the unit [b], puts the
    exact value between two neighbouring mantissas *)
Definition loc_of (r2 b : Z) : location :=
  if r2 =? 0 then loc_Exact else loc_Inexact (r2 ?= b).

(** A line is accepted in [st] with timestamp [t]: it passes every guard of
    the loop body, in the order the body tests them. *)
Definition accepted (st : norm_state) (line : string) (t : Z) : Prop :=
  skipped_line line = false ∧
  is_valid_text (line_text line) (seen_texts st) (last_text st) = true ∧
  parse_timestamp (timestamp_part line) = Some t ∧
  timestamp_seen st t = false.

(** What the loop keeps true of its variables. *)
Record wf_state (st : norm_state) : Prop := {
  wf_seen_timestamps :
    seen_timestamps st = list_to_set (start_seconds <$> entries st);
  wf_seen_texts : seen_texts st = list_to_set (text <$> entries st);
  wf_counter : current_entry st = Z.of_nat (length (entries st)) + 1;
  wf_last_end :
    last_end_time st = from_option end_seconds 0 (last (entries st));
  wf_last_text : last_text st = from_option text "" (last (entries st));
  wf_entry : ∀ (i : nat) (e : SubtitleEntry), entries st !! i = Some e →
    index e = Z.of_nat i + 1 ∧ end_seconds e = start_seconds e + 3 ∧
    1 ≤ start_seconds e ∧ text e ≠ "";
  wf_gaps : ∀ (i : nat) (e1 e2 : SubtitleEntry),
    entries st !! i = Some e1 → entries st !! S i = Some e2 →
    end_seconds e1 + 1 ≤ start_seconds e2;
  wf_texts_distinct : NoDup (text <$> entries st)
}.

(** ** Checks of the embedding on concrete inputs *)

Example filter_rejects_character_run :
  detect_repetition_pattern "aaaaaa" = true.
Proof. vm_compute. reflexivity. Qed.

Example filter_rejects_repeated_word :
  detect_repetition_pattern "foo foo foo" = true.
Proof. vm_compute. reflexivity. Qed.

Example filter_accepts_plain_sentence :
  detect_repetition_pattern "the weather today is sunny" = false.
Proof. vm_compute. reflexivity. Qed.

Example split_drops_blanks : Py.split "  a b  c " = ["a"; "b"; "c"].
Proof. vm_compute. reflexivity. Qed.

Example int_reads_sign_and_underscore : Py.int " -12_3 " = Some (-123).
Proof. vm_compute. reflexivity. Qed.

Example format_02d_pads :
  Py.format_02d 5 = "05" ∧ Py.format_02d (-5) = "-5" ∧ Py.format_02d 123 = "123".
Proof. vm_compute. auto. Qed.

Example parse_timestamp_samples :
  parse_timestamp "[12:34]" = Some 754 ∧ parse_timestamp "[1:2:3]" = None ∧
  parse_timestamp "[ 1 : 02 ]" = Some 62 ∧ parse_timestamp "" = None.
Proof. vm_compute. auto. Qed.

(** the end-to-end example: the second line repeats the text of the first *)
Example duplicate_text_dropped :
  entries (run_lines ["[00:02] Hello there"; "[00:05] Hello there"]) =
    [mkEntry 1 2 5 "Hello there"].
Proof. vm_compute. reflexivity. Qed.

(** the clamp example: 11 is below the previous end plus one *)
Example start_clamped :
  entries (normalize (Py.join newline ["[00:10] A"; "[00:11] B"])) =
    [mkEntry 1 10 13 "A"; mkEntry 2 14 17 "B"].
Proof. vm_compute. reflexivity. Qed.

(** The set [seen_timestamps] holds the start times after the clamp: the
    third line reports 11 as the second did and is kept, because the second
    entry starts at 14; in the second run the third line reports 14, which no
    line reported before, and is dropped. *)
Example guard_compares_clamped_starts :
  entries (run_lines ["[00:10] A"; "[00:11] B"; "[00:11] C"]) =
    [mkEntry 1 10 13 "A"; mkEntry 2 14 17 "B"; mkEntry 3 18 21 "C"] ∧
  entries (run_lines ["[00:10] A"; "[00:11] B"; "[00:14] C"]) =
    [mkEntry 1 10 13 "A"; mkEntry 2 14 17 "B"].
Proof. vm_compute. auto. Qed.

Example format_srt_one_block :
  format_srt "[00:02] Hello there" =
  Py.join newline ["1"; "00:00:02,000 --> 00:00:05,000"; "Hello there"; ""].
Proof. vm_compute. reflexivity. Qed.

Example num_segments_samples :
  num_segments 600000 300000 = Some 2 ∧ num_segments 600001 300000 = Some 3 ∧
  num_segments 0 300000 = Some 0 ∧ num_segments 5 0 = None.
Proof. vm_compute. auto. Qed.

(** one third in binary64 *)
Example true_divide_one_third :
  true_divide 1 3 = Some (S754_finite false 6004799503160661 (-54)).
Proof. vm_compute. reflexivity. Qed.

(** ** Facts about the string primitives *)

Section Strings.

Implicit Types (s w : string) (c : ascii) (p : ascii → bool).

Lemma ascii_eqb_true c d : Py.ascii_eqb c d = true ↔ c = d.
Proof. apply Ascii.eqb_eq. Qed.

Lemma to_list_app s1 s2 : Py.to_list (s1 +:+ s2) = Py.to_list s1 ++ Py.to_list s2.
Proof. induction s1 as [|c s1 IH]; [done|]. simpl. by rewrite <- IH. Qed.

Lemma to_of_list (l : list ascii) : Py.to_list (Py.of_list l) = l.
Proof. induction l as [|c l IH]; [done|]. simpl. by rewrite IH. Qed.

Lemma of_to_list s : Py.of_list (Py.to_list s) = s.
Proof. induction s as [|c s IH]; [done|]. simpl. by rewrite IH. Qed.

Lemma to_list_inj s1 s2 : Py.to_list s1 = Py.to_list s2 → s1 = s2.
Proof. intros H. by rewrite <- (of_to_list s1), <- (of_to_list s2), H. Qed.

Lemma contains_spec c s : Py.contains c s = true ↔ c ∈ Py.to_list s.
Proof.
  induction s as [|d s IH]; simpl.
  - split; [done|by intros ?%elem_of_nil].
  - rewrite orb_true_iff, ascii_eqb_true, IH, elem_of_cons. done.
Qed.

Lemma contains_false c s : Py.contains c s = false ↔ c ∉ Py.to_list s.
Proof. rewrite <- contains_spec. by destruct (Py.contains c s). Qed.

Lemma dropwhile_sub p s c :
  c ∈ Py.to_list (Py.dropwhile p s) → c ∈ Py.to_list s.
Proof.
  induction s as [|d s IH]; simpl; [done|].
  destruct (p d); [|done]. intros ?%IH. by apply elem_of_cons; right.
Qed.

Lemma elem_of_rev c s : c ∈ Py.to_list (Py.rev s) ↔ c ∈ Py.to_list s.
Proof.
  unfold Py.rev. rewrite to_of_list, !list_elem_of_In. symmetry.
  apply in_rev.
Qed.

Lemma strip_with_sub p s c :
  c ∈ Py.to_list (Py.strip_with p s) → c ∈ Py.to_list s.
Proof.
  unfold Py.strip_with. rewrite elem_of_rev.
  intros H%dropwhile_sub. apply (proj1 (elem_of_rev _ _)) in H.
  by apply dropwhile_sub in H.
Qed.

Lemma split_on_nonempty sep s : Py.split_on sep s ≠ [].
Proof.
  destruct s as [|c s]; simpl; [done|].
  destruct (Py.ascii_eqb sep c); [done|]. by destruct (Py.split_on sep s).
Qed.

Lemma split_on_sub sep s w c :
  w ∈ Py.split_on sep s → c ∈ Py.to_list w → c ∈ Py.to_list s.
Proof.
  revert w. induction s as [|d s IH]; intros w; simpl.
  - intros ->%list_elem_of_singleton. done.
  - destruct (Py.ascii_eqb sep d).
    + intros [->|Hw]%elem_of_cons Hc; [by apply elem_of_nil in Hc|].
      apply elem_of_cons. right. by apply (IH w).
    + destruct (Py.split_on sep s) as [|w0 ws] eqn:Hsp.
      * intros ->%list_elem_of_singleton. simpl.
        intros ->%list_elem_of_singleton. by apply elem_of_cons; left.
      * intros [->|Hw]%elem_of_cons Hc.
        -- simpl in Hc. apply elem_of_cons in Hc as [->|Hc];
             apply elem_of_cons; [by left|right].
           apply (IH w0); [by apply elem_of_cons; left|done].
        -- apply elem_of_cons. right. apply (IH w); [|done].
           by apply elem_of_cons; right.
Qed.

Lemma digit_value_nonneg c d : Py.digit_value c = Some d → 0 ≤ d.
Proof.
  unfold Py.digit_value.
  destruct (_ && _) eqn:Hr; [|done]. intros [= <-].
  apply andb_true_iff in Hr as [H1%N.leb_le H2]. lia.
Qed.

Lemma int_digits_nonneg s acc b n :
  0 ≤ acc → Py.int_digits s acc b = Some n → 0 ≤ n.
Proof.
  revert acc b. induction s as [|c s IH]; intros acc b Hacc; simpl.
  - destruct b; [|done]. by intros [= <-].
  - destruct (Py.digit_value c) as [d|] eqn:Hd.
    + apply IH. apply digit_value_nonneg in Hd. lia.
    + destruct (_ && _); [|done]. by apply IH.
Qed.

Lemma int_literal_nonneg s n : Py.int_literal s = Some n → 0 ≤ n.
Proof.
  unfold Py.int_literal. destruct (_ <=? _); [|done].
  by apply int_digits_nonneg.
Qed.

(** An int literal without a minus sign is not negative. *)
Lemma int_nonneg s n :
  Py.int s = Some n → Py.contains "-" s = false → 0 ≤ n.
Proof.
  unfold Py.int. intros Hi Hc. apply contains_false in Hc.
  destruct (Py.strip_with Py.int_space s) as [|c s'] eqn:Hs.
  - by apply int_literal_nonneg in Hi.
  - destruct (decide (c = "-"%char)) as [->|Hne].
    + exfalso. apply Hc, (strip_with_sub Py.int_space). rewrite Hs. simpl.
      by apply elem_of_cons; left.
    + assert (Py.int_literal s' = Some n ∨
              Py.int_literal (String c s') = Some n) as [H|H].
      { destruct c as [[] [] [] [] [] [] [] []]; try (by right); by left. }
      all: by apply int_literal_nonneg in H.
Qed.

End Strings.

(** ** The repetition filter on a two-word cycle *)

Lemma one_distinct_spec `{Countable A} (xs : list A) :
  one_distinct xs = true ↔ ∃ x, x ∈ xs ∧ ∀ y, y ∈ xs → y = x.
Proof.
  unfold one_distinct. rewrite bool_decide_eq_true. split.
  - intros (x & Hx)%size_1_elem_of. exists x. split.
    + apply (elem_of_list_to_set (C := gset A)). rewrite Hx. by apply elem_of_singleton.
    + intros y Hy. apply (elem_of_list_to_set (C := gset A)) in Hy.
      rewrite Hx in Hy. by apply elem_of_singleton in Hy.
  - intros (x & Hx & Hall).
    assert ((list_to_set xs : gset A) = {[x]}) as ->; [|apply size_singleton].
    apply set_eq. intros y. rewrite elem_of_list_to_set, elem_of_singleton.
    split; [apply Hall|by intros ->].
Qed.

Lemma split_scan_no_blank s :
  no_blank (Py.split_scan s).1 ∧ Forall no_blank (Py.split_scan s).2.
Proof.
  induction s as [|c s [IHw IHws]]; simpl.
  - split; [by intros ?%elem_of_nil|constructor].
  - destruct (Py.split_scan s) as [w ws]. simpl in *.
    destruct (Py.isspace c) eqn:Hc; simpl.
    + split; [by intros ?%elem_of_nil|].
      destruct w; simpl; [done|by constructor].
    + split; [|done]. intros [<-|Hin]%elem_of_cons; [done|by apply IHw].
Qed.

Lemma split_no_blank s : Forall no_blank (Py.split s).
Proof.
  unfold Py.split. pose proof (split_scan_no_blank s) as [Hw Hws].
  destruct (Py.split_scan s) as [w ws]. simpl in *.
  destruct w; simpl; [done|by constructor].
Qed.

Lemma app_blank_inj w v w' v' :
  no_blank w → no_blank w' →
  w +:+ " " +:+ v = w' +:+ " " +:+ v' → w = w' ∧ v = v'.
Proof.
  revert w'. induction w as [|c w IH]; intros [|c' w'] Hw Hw' Heq.
  - by injection Heq.
  - injection Heq as <- _. exfalso. apply Hw'. by apply elem_of_cons; left.
  - injection Heq as -> _. exfalso. apply Hw. by apply elem_of_cons; left.
  - injection Heq as <- Heq.
    destruct (IH w') as [-> ->]; [| |done|done].
    + intros Hin. apply Hw. by apply elem_of_cons; right.
    + intros Hin. apply Hw'. by apply elem_of_cons; right.
Qed.

Lemma word_pairs_cons w1 w2 rest :
  word_pairs (w1 :: w2 :: rest) = (w1 +:+ " " +:+ w2) :: word_pairs (w2 :: rest).
Proof. done. Qed.

Lemma windows_all_same_word a ws :
  no_blank a → Forall no_blank ws →
  (∀ p, p ∈ word_pairs (a :: ws) → p = a +:+ " " +:+ a) →
  ∀ w, w ∈ ws → w = a.
Proof.
  intros Ha Hws. induction Hws as [|w ws Hw Hws IH]; intros Hp x Hx;
    [by apply elem_of_nil in Hx|].
  rewrite word_pairs_cons in Hp.
  assert (w = a) as ->.
  { destruct (app_blank_inj a w a a) as [_ ->]; try done.
    apply Hp. by apply elem_of_cons; left. }
  apply elem_of_cons in Hx as [->|Hx]; [done|].
  apply IH; [|done]. intros p Hin. apply Hp. by apply elem_of_cons; right.
Qed.

(** Sliding windows one word apart are all the same only when the words
    are: on three words or more the fourth check of
    [detect_repetition_pattern] never fires where the third did not. *)
Lemma identical_windows_identical_words (text : string) :
  (3 ≤ length (Py.split text))%nat →
  one_distinct (word_pairs (Py.split text)) = true →
  one_distinct (Py.split text) = true.
Proof.
  intros Hlen (x & Hx & Hall)%one_distinct_spec.
  pose proof (split_no_blank text) as Hnb.
  destruct (Py.split text) as [|w1 [|w2 [|w3 rest]]]; simpl in Hlen; try lia.
  clear Hx. rewrite !word_pairs_cons in Hall.
  assert (w1 +:+ " " +:+ w2 = x) as H12 by (apply Hall, elem_of_cons; by left).
  assert (w2 +:+ " " +:+ w3 = x) as H23.
  { apply Hall, elem_of_cons; right. by apply elem_of_cons; left. }
  inversion Hnb as [|? ? Hn1 Hnb1]; subst.
  inversion Hnb1 as [|? ? Hn2 Hnb2]; subst.
  destruct (app_blank_inj w1 w2 w2 w3) as [-> ->]; [done|done|congruence|].
  apply one_distinct_spec. exists w3. split; [by apply elem_of_cons; left|].
  intros y [->|Hy]%elem_of_cons; [done|].
  by apply (windows_all_same_word w3 (w3 :: w3 :: rest)).
Qed.

(** So the filter is the first three checks. *)
Lemma detect_repetition_pattern_three_checks (text : string) :
  detect_repetition_pattern text =
    negb (Py.truthy text)
    || ((2 <? Py.len (Py.remove_char " " text))
        && one_distinct (Py.to_list (Py.remove_char " " text)))
    || ((2 <? Z.of_nat (length (Py.split text)))
        && one_distinct (Py.split text)).
Proof.
  unfold detect_repetition_pattern.
  destruct (negb (Py.truthy text)); [done|].
  destruct (_ && _); [done|]. simpl.
  destruct (Z.ltb_spec 2 (Z.of_nat (length (Py.split text)))) as [H2|H2];
    [|done].
  destruct (one_distinct (Py.split text)) eqn:Hw; [done|]. simpl.
  destruct (Z.ltb_spec 4 (Z.of_nat (length (Py.split text)))); [|done].
  destruct (one_distinct (word_pairs (Py.split text))) eqn:Hp; [|done].
  apply identical_windows_identical_words in Hp; [congruence|lia].
Qed.

(** The reading of the fourth check that the code meets: when all sliding
    windows of two words are the same string, the text is rejected. *)
Lemma identical_windows_rejected (text : string) (seen : gset string)
    (last : string) :
  (5 ≤ length (Py.split text))%nat →
  one_distinct (word_pairs (Py.split text)) = true →
  detect_repetition_pattern text = true ∧ is_valid_text text seen last = false.
Proof.
  intros Hlen Hpairs.
  assert (detect_repetition_pattern text = true) as Hd.
  { unfold detect_repetition_pattern.
    destruct (negb (Py.truthy text)); [done|].
    destruct (_ && _); [done|].
    destruct (Z.ltb_spec 2 (Z.of_nat (length (Py.split text)))); [|lia].
    destruct (one_distinct (Py.split text)); [done|].
    destruct (Z.ltb_spec 4 (Z.of_nat (length (Py.split text)))); [|lia].
    by rewrite Hpairs. }
  split; [done|]. unfold is_valid_text. rewrite Hd.
  by destruct (negb (Py.truthy text)).
Qed.

(** C1. On the text "foo bar foo bar foo bar" (six words, a two-word cycle
    over the whole line) the filter does not fire: the windows taken one
    word apart alternate between "foo bar" and "bar foo",
    [detect_repetition_pattern] returns false, [is_valid_text] returns true,
    and the line becomes an entry. *)
Theorem repeating_bigram_not_rejected :
  Py.split "foo bar foo bar foo bar" = ["foo"; "bar"; "foo"; "bar"; "foo"; "bar"] ∧
  word_pairs (Py.split "foo bar foo bar foo bar") =
    ["foo bar"; "bar foo"; "foo bar"; "bar foo"; "foo bar"] ∧
  detect_repetition_pattern "foo bar foo bar foo bar" = false ∧
  is_valid_text "foo bar foo bar foo bar" ∅ "" = true ∧
  entries (normalize "[00:01] foo bar foo bar foo bar") =
    [mkEntry 1 1 4 "foo bar foo bar foo bar"].
Proof. repeat split; vm_compute; reflexivity. Qed.

(** ** The value of a parsed timestamp *)

(** C4 (as amended). Whenever [parse_timestamp] accepts a token, the token
    without its brackets splits at the colons into exactly two fields, [int]
    accepts both, and the value returned is minutes times 60 plus seconds;
    when the token holds no minus sign, both fields and the value returned
    are non-negative. *)
Theorem parse_timestamp_value (timestamp_str : string) (v : Z) :
  parse_timestamp timestamp_str = Some v →
  ∃ f1 f2 mm ss,
    Py.split_on ":" (Py.strip_chars "[]" timestamp_str) = [f1; f2] ∧
    Py.int f1 = Some mm ∧ Py.int f2 = Some ss ∧ v = mm * 60 + ss ∧
    (Py.contains "-" timestamp_str = false → 0 ≤ mm ∧ 0 ≤ ss ∧ 0 ≤ v).
Proof.
  unfold parse_timestamp. intros Hp.
  destruct (Py.split_on ":" _) as [|f1 [|f2 [|f3 fs]]] eqn:Hsp; try done.
  destruct (Py.int f1) as [mm|] eqn:H1; [|done].
  destruct (Py.int f2) as [ss|] eqn:H2; [|done].
  injection Hp as <-. exists f1, f2, mm, ss.
  split; [done|]. split; [done|]. split; [done|]. split; [done|].
  intros Hc. apply contains_false in Hc.
  assert (∀ f n, f ∈ [f1; f2] → Py.int f = Some n → 0 ≤ n) as Hnn.
  { intros f n Hf Hi. eapply int_nonneg; [done|].
    apply contains_false. intros Hin.
    apply Hc, (strip_with_sub (λ c, Py.contains c "[]")).
    eapply split_on_sub; [|done].
    fold (Py.strip_chars "[]" timestamp_str). by rewrite Hsp. }
  assert (0 ≤ mm) by (apply (Hnn f1); [apply elem_of_cons; by left|done]).
  assert (0 ≤ ss).
  { apply (Hnn f2); [|done]. apply elem_of_cons; right.
    by apply elem_of_cons; left. }
  lia.
Qed.

Lemma parse_timestamp_value_witness :
  ∃ f1 f2 mm ss,
    Py.split_on ":" (Py.strip_chars "[]" "[01:05]") = [f1; f2] ∧
    Py.int f1 = Some mm ∧ Py.int f2 = Some ss ∧ 65 = mm * 60 + ss ∧
    (Py.contains "-" "[01:05]" = false → 0 ≤ mm ∧ 0 ≤ ss ∧ 0 ≤ 65).
Proof. apply (parse_timestamp_value "[01:05]" 65). vm_compute. reflexivity. Defined.

(** C4 as first stated fails: a field may carry a sign. *)
Lemma parse_timestamp_negative_counterexample :
  timestamp_part "[-1:00] hello" = "[-1:00]" ∧
  parse_timestamp "[-1:00]" = Some (-60) ∧
  ¬ (∀ timestamp_str v, parse_timestamp timestamp_str = Some v → 0 ≤ v).
Proof.
  assert (parse_timestamp "[-1:00]" = Some (-60)) as H
    by (vm_compute; reflexivity).
  split; [vm_compute; reflexivity|]. split; [done|].
  intros Hall. specialize (Hall _ _ H). lia.
Qed.

(** ** Invariants of the normalisation loop *)

Section Normaliser.

Implicit Types (st : norm_state) (line txt : string) (t : Z).
Implicit Types (e : SubtitleEntry) (lines : list string).

Lemma process_line_accepted st line t :
  accepted st line t →
  process_line st line = accept_line st t (line_text line).
Proof.
  intros (Hs & Hv & Hp & Hd). unfold process_line.
  by rewrite Hs, Hv, Hp, Hd.
Qed.

Lemma process_line_cases st line :
  process_line st line = st ∨
  ∃ t, accepted st line t ∧
       process_line st line = accept_line st t (line_text line).
Proof.
  unfold process_line.
  destruct (skipped_line line) eqn:Hs; [by left|].
  destruct (is_valid_text _ _ _) eqn:Hv; simpl; [|by left].
  destruct (parse_timestamp _) as [t|] eqn:Hp; [|by left].
  destruct (timestamp_seen st t) eqn:Hd; [by left|].
  right. exists t. by repeat split.
Qed.

Lemma is_valid_text_true txt (seen : gset string) last :
  is_valid_text txt seen last = true →
  txt ≠ "" ∧ detect_repetition_pattern txt = false ∧ (txt ∉ seen) ∧ txt ≠ last.
Proof.
  unfold is_valid_text. destruct txt as [|c txt']; [done|]. simpl.
  destruct (detect_repetition_pattern _); [done|].
  repeat case_bool_decide; done.
Qed.

Lemma is_valid_text_intro txt (seen : gset string) last :
  detect_repetition_pattern txt = false → txt ∉ seen → txt ≠ last →
  is_valid_text txt seen last = true.
Proof.
  intros Hp Hs Hl. unfold is_valid_text.
  destruct txt as [|c txt']; [by vm_compute in Hp|]. simpl. rewrite Hp.
  by rewrite !bool_decide_eq_false_2.
Qed.

Lemma is_valid_text_false_seen txt (seen : gset string) last :
  txt ∈ seen → is_valid_text txt seen last = false.
Proof.
  intros Hin. unfold is_valid_text.
  destruct (negb _); [done|]. destruct (detect_repetition_pattern _); [done|].
  by rewrite bool_decide_eq_true_2.
Qed.

Lemma wf_last_end_nonneg st : wf_state st → 0 ≤ last_end_time st.
Proof.
  intros Hwf. rewrite (wf_last_end _ Hwf).
  destruct (last (entries st)) as [e|] eqn:Hl; simpl; [|lia].
  rewrite last_lookup in Hl.
  destruct (wf_entry _ Hwf _ _ Hl) as (_ & He & Hs & _). lia.
Qed.

Lemma wf_init : wf_state init_state.
Proof.
  split; simpl; try done.
  - apply NoDup_nil_2.
Qed.

Lemma wf_accept st t txt :
  wf_state st → txt ≠ "" → txt ∉ seen_texts st →
  wf_state (accept_line st t txt).
Proof.
  intros Hwf Hne Hfresh.
  pose proof (wf_last_end_nonneg _ Hwf) as Hnn.
  split; simpl.
  - rewrite fmap_app, list_to_set_app_L, (wf_seen_timestamps _ Hwf). simpl.
    by rewrite (right_id_L ∅ (∪)).
  - rewrite fmap_app, list_to_set_app_L, (wf_seen_texts _ Hwf). simpl.
    by rewrite (right_id_L ∅ (∪)).
  - rewrite length_app, (wf_counter _ Hwf). simpl. lia.
  - by rewrite last_snoc.
  - by rewrite last_snoc.
  - intros i e Hi.
    destruct (decide (i < length (entries st))%nat) as [Hlt|Hge].
    + rewrite lookup_app_l in Hi by done. by apply (wf_entry _ Hwf).
    + rewrite lookup_app_r in Hi by lia.
      apply list_lookup_singleton_Some in Hi as [Hi <-]. simpl.
      rewrite (wf_counter _ Hwf). repeat split; [lia|lia|done].
  - intros i e1 e2 H1 H2.
    destruct (decide (S i < length (entries st))%nat) as [Hlt|Hge].
    + rewrite lookup_app_l in H1 by lia. rewrite lookup_app_l in H2 by lia.
      by apply (wf_gaps _ Hwf i).
    + rewrite lookup_app_r in H2 by lia.
      apply list_lookup_singleton_Some in H2 as [H2 <-]. simpl.
      assert (S i = length (entries st)) as Hlen by lia.
      rewrite lookup_app_l in H1 by lia.
      assert (last (entries st) = Some e1) as Hl.
      { rewrite last_lookup, <- Hlen. done. }
      rewrite (wf_last_end _ Hwf), Hl. simpl. lia.
  - rewrite fmap_app. simpl. apply NoDup_app. split; [apply (wf_texts_distinct _ Hwf)|].
    split.
    + intros x Hx Hx'. apply list_elem_of_singleton in Hx' as ->.
      apply Hfresh. rewrite (wf_seen_texts _ Hwf). by apply elem_of_list_to_set.
    + apply NoDup_singleton.
Qed.

Lemma wf_process_line st line : wf_state st → wf_state (process_line st line).
Proof.
  intros Hwf. destruct (process_line_cases st line) as [->|(t & Hacc & ->)]; [done|].
  destruct Hacc as (_ & Hv & _ & _).
  apply is_valid_text_true in Hv as (Hne & _ & Hfresh & _).
  by apply wf_accept.
Qed.

Lemma wf_fold lines st :
  wf_state st → wf_state (fold_left process_line lines st).
Proof.
  revert st. induction lines as [|l lines IH]; intros st Hwf; simpl; [done|].
  apply IH. by apply wf_process_line.
Qed.

Lemma wf_run_lines lines : wf_state (run_lines lines).
Proof. apply wf_fold, wf_init. Qed.

Lemma wf_normalize s : wf_state (normalize s).
Proof. apply wf_run_lines. Qed.

Lemma run_lines_snoc lines line :
  run_lines (lines ++ [line]) = process_line (run_lines lines) line.
Proof. unfold run_lines. by rewrite fold_left_app. Qed.

Lemma run_lines_app lines more :
  run_lines (lines ++ more) = fold_left process_line more (run_lines lines).
Proof. unfold run_lines. by rewrite fold_left_app. Qed.

(** The states of a pass of [format_srt] are the [run_lines] of the lines
    read so far. *)
Lemma normalize_from_prefix (timestamps_text : string) (k : nat) :
  normalize timestamps_text =
  fold_left process_line (drop k (Py.split_on nl timestamps_text))
    (run_lines (take k (Py.split_on nl timestamps_text))).
Proof. unfold normalize. by rewrite <- run_lines_app, take_drop. Qed.

Lemma entries_accept st t txt :
  entries (accept_line st t txt) =
  entries st ++ [mkEntry (current_entry st) (Z.max t (last_end_time st + 1))
                         (Z.max t (last_end_time st + 1) + 3) txt].
Proof. done. Qed.

Lemma entries_process_line st line :
  entries st `prefix_of` entries (process_line st line).
Proof.
  destruct (process_line_cases st line) as [->|(t & _ & ->)]; [done|].
  rewrite entries_accept. by apply prefix_app_r.
Qed.

Lemma entries_fold more st :
  entries st `prefix_of` entries (fold_left process_line more st).
Proof.
  revert st. induction more as [|l more IH]; intros st; simpl; [done|].
  etrans; [apply entries_process_line|apply IH].
Qed.

Lemma state_unchanged_iff st line :
  entries (process_line st line) = entries st ↔ process_line st line = st.
Proof.
  split; [|by intros ->].
  destruct (process_line_cases st line) as [->|(t & _ & ->)]; [done|].
  rewrite entries_accept. intros Heq.
  apply (f_equal length) in Heq. rewrite length_app in Heq. simpl in Heq. lia.
Qed.

(** Every entry comes from a line that was accepted at its turn. *)
Lemma entry_origin lines e :
  e ∈ entries (run_lines lines) →
  ∃ k line t, lines !! k = Some line ∧
    accepted (run_lines (take k lines)) line t ∧ line_text line = text e.
Proof.
  induction lines as [|line lines IH] using rev_ind; [by intros ?%elem_of_nil|].
  rewrite run_lines_snoc.
  destruct (process_line_cases (run_lines lines) line)
    as [->|(t & Hacc & ->)].
  - intros (k & l & t & Hk & Hacc & Htxt)%IH.
    pose proof (lookup_lt_Some _ _ _ Hk) as Hlt.
    exists k, l, t. rewrite lookup_app_l by done.
    rewrite take_app_le by lia. done.
  - rewrite entries_accept. intros [Hin|Hin]%elem_of_app.
    + destruct (IH Hin) as (k & l & t' & Hk & Hacc' & Htxt).
      pose proof (lookup_lt_Some _ _ _ Hk) as Hlt.
      exists k, l, t'. rewrite lookup_app_l by done.
      rewrite take_app_le by lia. done.
    + apply list_elem_of_singleton in Hin as ->. simpl.
      exists (length lines), line, t.
      rewrite lookup_app_r by lia. rewrite Nat.sub_diag. simpl.
      rewrite take_app_le by lia. rewrite take_ge by lia. done.
Qed.

End Normaliser.

(** ** The subtitle entries of one pass *)

(** C2. Monotonicity: in the entries that [format_srt] renders for any input
    text, each entry starts at least one second after the entry before it
    ended, and each entry ends after it starts. *)
Theorem format_srt_entries_monotone (timestamps_text : string) (i : nat)
    (e1 e2 : SubtitleEntry) :
  entries (normalize timestamps_text) !! i = Some e1 →
  entries (normalize timestamps_text) !! S i = Some e2 →
  end_seconds e1 + 1 ≤ start_seconds e2 ∧
  start_seconds e1 < end_seconds e1 ∧ start_seconds e2 < end_seconds e2.
Proof.
  intros H1 H2. pose proof (wf_normalize timestamps_text) as Hwf.
  split; [by apply (wf_gaps _ Hwf i)|].
  destruct (wf_entry _ Hwf _ _ H1) as (_ & Hd1 & _).
  destruct (wf_entry _ Hwf _ _ H2) as (_ & Hd2 & _).
  lia.
Qed.

Lemma format_srt_entries_monotone_witness :
  end_seconds (mkEntry 1 10 13 "A") + 1 ≤ start_seconds (mkEntry 2 14 17 "B") ∧
  start_seconds (mkEntry 1 10 13 "A") < end_seconds (mkEntry 1 10 13 "A") ∧
  start_seconds (mkEntry 2 14 17 "B") < end_seconds (mkEntry 2 14 17 "B").
Proof.
  apply (format_srt_entries_monotone
           (Py.join newline ["[00:10] A"; "[00:11] B"]) 0);
    vm_compute; reflexivity.
Defined.

(** C5. Fixed duration: every entry produced for any input text ends exactly
    three seconds after it starts. *)
Theorem entry_duration_is_three (timestamps_text : string) (e : SubtitleEntry) :
  e ∈ entries (normalize timestamps_text) →
  end_seconds e - start_seconds e = 3.
Proof.
  intros (i & Hi)%list_elem_of_lookup.
  destruct (wf_entry _ (wf_normalize timestamps_text) _ _ Hi) as (_ & Hd & _).
  lia.
Qed.

Lemma entry_duration_is_three_witness :
  end_seconds (mkEntry 2 14 17 "B") - start_seconds (mkEntry 2 14 17 "B") = 3.
Proof.
  apply (entry_duration_is_three (Py.join newline ["[00:10] A"; "[00:11] B"])).
  vm_compute. apply list_elem_of_further, list_elem_of_here.
Defined.

(** C3. The duplicate start-time guard.  In any state of a pass (the state
    after the lines read so far), the guard fires for a reported timestamp
    exactly when that value is the start time of an entry made earlier in the
    pass.  A line whose timestamp has been used so produces no entry and
    leaves the state as it was, whatever its text; a line whose timestamp has
    not been used and which passed the text checks before the guard produces
    the next entry. *)
Theorem duplicate_start_time_guard (lines : list string) (line : string) (t : Z) :
  parse_timestamp (timestamp_part line) = Some t →
  (timestamp_seen (run_lines lines) t = true ↔
     ∃ e, e ∈ entries (run_lines lines) ∧ start_seconds e = t) ∧
  (timestamp_seen (run_lines lines) t = true →
     process_line (run_lines lines) line = run_lines lines) ∧
  (timestamp_seen (run_lines lines) t = false →
     skipped_line line = false →
     is_valid_text (line_text line) (seen_texts (run_lines lines))
       (last_text (run_lines lines)) = true →
     entries (process_line (run_lines lines) line) =
       entries (run_lines lines) ++
       [mkEntry (current_entry (run_lines lines))
                (Z.max t (last_end_time (run_lines lines) + 1))
                (Z.max t (last_end_time (run_lines lines) + 1) + 3)
                (line_text line)]).
Proof.
  intros Hp. set (st := run_lines lines).
  pose proof (wf_run_lines lines) as Hwf. fold st in Hwf.
  split; [|split].
  - unfold timestamp_seen. rewrite bool_decide_eq_true.
    rewrite (wf_seen_timestamps _ Hwf), elem_of_list_to_set, list_elem_of_fmap.
    split; intros (e & H1 & H2); exists e; done.
  - intros Hseen. unfold process_line. rewrite Hp, Hseen.
    destruct (skipped_line line); [done|]. by destruct (negb _).
  - intros Hseen Hs Hv.
    rewrite (process_line_accepted st line t); [apply entries_accept|done].
Qed.

(** The second line carries a text never seen before; it is dropped because
    its timestamp is the start time of the entry made for the first line. *)
Lemma duplicate_start_time_guard_witness :
  is_valid_text (line_text "[00:10] B") (seen_texts (run_lines ["[00:10] A"]))
    (last_text (run_lines ["[00:10] A"])) = true ∧
  process_line (run_lines ["[00:10] A"]) "[00:10] B" = run_lines ["[00:10] A"].
Proof.
  split; [vm_compute; reflexivity|].
  apply (duplicate_start_time_guard ["[00:10] A"] "[00:10] B" 10);
    vm_compute; reflexivity.
Defined.

(** C8. One entry per text.  In any state of a pass no two entries carry the
    same text, and once an entry carries a text every later line with that
    text, whatever its timestamp, leaves the state as it was. *)
Theorem one_entry_per_text (lines more : list string) (line : string)
    (i j : nat) (e1 e2 : SubtitleEntry) :
  entries (run_lines lines) !! i = Some e1 →
  entries (run_lines lines) !! j = Some e2 →
  line_text line = text e1 →
  (text e1 = text e2 → i = j) ∧
  process_line (run_lines (lines ++ more)) line = run_lines (lines ++ more).
Proof.
  intros H1 H2 Hl. split.
  - intros Heq.
    apply (NoDup_lookup (text <$> entries (run_lines lines)) i j (text e1)).
    + apply (wf_texts_distinct _ (wf_run_lines lines)).
    + by rewrite list_lookup_fmap, H1.
    + by rewrite list_lookup_fmap, H2, Heq.
  - pose proof (wf_run_lines (lines ++ more)) as Hwf.
    assert (e1 ∈ entries (run_lines (lines ++ more))) as Hin.
    { rewrite run_lines_app.
      eapply elem_of_prefix; [|apply entries_fold].
      by eapply list_elem_of_lookup_2. }
    unfold process_line. destruct (skipped_line line); [done|].
    rewrite is_valid_text_false_seen; [done|].
    rewrite (wf_seen_texts _ Hwf), elem_of_list_to_set, Hl.
    by apply list_elem_of_fmap_2.
Qed.

Lemma one_entry_per_text_witness :
  (text (mkEntry 1 2 5 "Hello there") = text (mkEntry 1 2 5 "Hello there") →
   0%nat = 0%nat) ∧
  process_line (run_lines (["[00:02] Hello there"] ++ ["[00:04] Other"]))
    "[00:09] Hello there"
  = run_lines (["[00:02] Hello there"] ++ ["[00:04] Other"]).
Proof.
  apply (one_entry_per_text ["[00:02] Hello there"] ["[00:04] Other"]
           "[00:09] Hello there" 0 0 (mkEntry 1 2 5 "Hello there")
           (mkEntry 1 2 5 "Hello there"));
    vm_compute; reflexivity.
Defined.

Lemma no_entries_init_state lines :
  entries (run_lines lines) = [] → run_lines lines = init_state.
Proof.
  intros He. destruct (wf_run_lines lines) as [H1 H2 H3 H4 H5 _ _ _].
  rewrite He in *. simpl in *.
  destruct (run_lines lines) as [es sts stx ce le lt]. simpl in *.
  subst. reflexivity.
Qed.

(** C9. Rejection is atomic.  A line that is rejected for any of the reasons
    the loop body knows (blank or without a bracket, invalid text, a
    timestamp that does not parse or was already used), or more generally a
    line for which no entry is appended, leaves the whole state (entries,
    both sets, the counter, the previous end time and the previous text) as
    it was.  Hence a text that so far appeared only on rejected lines is
    still free: a later line carrying it is accepted as soon as it passes the
    pattern check and brings a timestamp that parses and is unused. *)
Theorem rejection_is_atomic :
  (∀ (st : norm_state) (line : string),
     skipped_line line = true ∨
     is_valid_text (line_text line) (seen_texts st) (last_text st) = false ∨
     parse_timestamp (timestamp_part line) = None ∨
     (∃ t, parse_timestamp (timestamp_part line) = Some t ∧
           timestamp_seen st t = true) ∨
     entries (process_line st line) = entries st →
     process_line st line = st) ∧
  (∀ (lines : list string) (line : string) (t : Z),
     (∀ k l, lines !! k = Some l → line_text l = line_text line →
             process_line (run_lines (take k lines)) l = run_lines (take k lines)) →
     skipped_line line = false →
     detect_repetition_pattern (line_text line) = false →
     parse_timestamp (timestamp_part line) = Some t →
     timestamp_seen (run_lines lines) t = false →
     entries (process_line (run_lines lines) line) =
       entries (run_lines lines) ++
       [mkEntry (current_entry (run_lines lines))
                (Z.max t (last_end_time (run_lines lines) + 1))
                (Z.max t (last_end_time (run_lines lines) + 1) + 3)
                (line_text line)]).
Proof.
  split.
  - intros st line [Hs|[Hv|[Hp|[(t & Hp & Hd)|He]]]].
    + unfold process_line. by rewrite Hs.
    + unfold process_line. rewrite Hv. by destruct (skipped_line line).
    + unfold process_line. rewrite Hp. destruct (skipped_line line); [done|].
      by destruct (negb _).
    + unfold process_line. rewrite Hp, Hd. destruct (skipped_line line); [done|].
      by destruct (negb _).
    + by apply state_unchanged_iff.
  - intros lines line t Hrej Hs Hpat Hp Hd.
    set (st := run_lines lines). pose proof (wf_run_lines lines) as Hwf.
    fold st in Hwf.
    assert (∀ e, e ∈ entries st → text e ≠ line_text line) as Hfree.
    { intros e (k & l & t' & Hk & Hacc & Htxt)%entry_origin Heq.
      pose proof (Hrej k l Hk (eq_trans Htxt Heq)) as Hsame.
      rewrite (process_line_accepted _ _ _ Hacc) in Hsame.
      apply (f_equal entries) in Hsame. rewrite entries_accept in Hsame.
      apply (f_equal length) in Hsame. rewrite length_app in Hsame.
      simpl in Hsame. lia. }
    assert (is_valid_text (line_text line) (seen_texts st) (last_text st) = true)
      as Hv.
    { apply is_valid_text_intro; [done| |].
      - rewrite (wf_seen_texts _ Hwf), elem_of_list_to_set.
        intros (e & He1 & He2)%list_elem_of_fmap. by apply (Hfree e).
      - rewrite (wf_last_text _ Hwf).
        destruct (last (entries st)) as [e|] eqn:Hl; simpl.
        + intros Heq. apply (Hfree e); [|done].
          rewrite last_lookup in Hl. by eapply list_elem_of_lookup_2.
        + intros Heq. rewrite Heq in Hpat. by vm_compute in Hpat. }
    rewrite (process_line_accepted st line t); [apply entries_accept|done].
Qed.

(** "B" first comes on a line rejected for its timestamp; the state is the
    one before that line, and the next line carrying "B" is accepted. *)
Lemma rejection_is_atomic_witness :
  process_line (run_lines ["[00:10] A"]) "[00:10] B" = run_lines ["[00:10] A"] ∧
  entries (process_line (run_lines ["[00:10] A"; "[00:10] B"]) "[00:20] B") =
    [mkEntry 1 10 13 "A"; mkEntry 2 20 23 "B"].
Proof.
  split.
  - apply (proj1 rejection_is_atomic). right. right. right. left.
    exists 10. split; vm_compute; reflexivity.
  - apply (proj2 rejection_is_atomic ["[00:10] A"; "[00:10] B"] "[00:20] B" 20).
    + intros [|[|k]] l Hk Hl; simpl in Hk.
      * injection Hk as <-. vm_compute in Hl. discriminate Hl.
      * injection Hk as <-. vm_compute. reflexivity.
      * discriminate Hk.
    + vm_compute. reflexivity.
    + vm_compute. reflexivity.
    + vm_compute. reflexivity.
    + vm_compute. reflexivity.
Defined.

(** C10 (as amended). The previous-end cursor starts at 0.  The first line
    accepted in a pass therefore starts at [max t 1]; every entry of every
    pass starts at second 1 or later; and a line that reports timestamp 0 is
    never stopped by the start-time guard, starts one second after the
    previous end, so never at 0, and at exactly 1 when it is the first
    accepted line. *)
Theorem first_start_is_at_least_one :
  last_end_time init_state = 0 ∧
  (∀ (lines : list string) (line : string) (t : Z),
     entries (run_lines lines) = [] →
     accepted (run_lines lines) line t →
     entries (process_line (run_lines lines) line) =
       [mkEntry 1 (Z.max t 1) (Z.max t 1 + 3) (line_text line)]) ∧
  (∀ (timestamps_text : string) (e : SubtitleEntry),
     e ∈ entries (normalize timestamps_text) → 1 ≤ start_seconds e) ∧
  (∀ (lines : list string) (line : string),
     parse_timestamp (timestamp_part line) = Some 0 →
     skipped_line line = false →
     is_valid_text (line_text line) (seen_texts (run_lines lines))
       (last_text (run_lines lines)) = true →
     ∃ e, entries (process_line (run_lines lines) line) =
            entries (run_lines lines) ++ [e] ∧
          start_seconds e = last_end_time (run_lines lines) + 1 ∧
          1 ≤ start_seconds e ∧
          (entries (run_lines lines) = [] → start_seconds e = 1)).
Proof.
  split; [done|]. split; [|split].
  - intros lines line t He Hacc.
    rewrite (process_line_accepted _ _ _ Hacc), entries_accept.
    rewrite (no_entries_init_state _ He). reflexivity.
  - intros s e (i & Hi)%list_elem_of_lookup.
    by destruct (wf_entry _ (wf_normalize s) _ _ Hi) as (_ & _ & Hs & _).
  - intros lines line Hp Hs Hv. set (st := run_lines lines) in *.
    pose proof (wf_run_lines lines) as Hwf. fold st in Hwf.
    pose proof (wf_last_end_nonneg _ Hwf) as Hnn.
    assert (timestamp_seen st 0 = false) as Hd.
    { unfold timestamp_seen. apply bool_decide_eq_false_2.
      rewrite (wf_seen_timestamps _ Hwf), elem_of_list_to_set.
      intros (e & He1 & (i & Hi)%list_elem_of_lookup)%list_elem_of_fmap.
      destruct (wf_entry _ Hwf _ _ Hi) as (_ & _ & Hge & _). lia. }
    rewrite (process_line_accepted st line 0); [|done].
    rewrite entries_accept. eexists. split; [reflexivity|]. simpl.
    split; [lia|]. split; [lia|].
    intros He. fold st in He. rewrite (wf_last_end _ Hwf), He. simpl. lia.
Qed.

Lemma first_start_is_at_least_one_witness :
  entries (process_line (run_lines ["no bracket here"]) "[00:00] Hi") =
    [mkEntry 1 (Z.max 0 1) (Z.max 0 1 + 3) (line_text "[00:00] Hi")] ∧
  1 ≤ start_seconds (mkEntry 1 1 4 "Hi").
Proof.
  split.
  - apply (proj1 (proj2 first_start_is_at_least_one) ["no bracket here"]
             "[00:00] Hi" 0); [vm_compute; reflexivity|].
    repeat split; vm_compute; reflexivity.
  - apply (proj1 (proj2 (proj2 first_start_is_at_least_one)) "[00:00] Hi").
    vm_compute. apply list_elem_of_here.
Defined.

(** C10 as first stated fails: a line that reports timestamp 0 starts at 1
    only when it is the first line accepted; after an earlier entry it starts
    one second after that entry's end, here at 5. *)
Lemma zero_timestamp_after_entry_counterexample :
  parse_timestamp (timestamp_part "[00:00] A") = Some 0 ∧
  parse_timestamp (timestamp_part "[00:00] B") = Some 0 ∧
  entries (normalize ("[00:00] A" +:+ newline +:+ "[00:00] B")) =
    [mkEntry 1 1 4 "A"; mkEntry 2 5 8 "B"] ∧
  ¬ (∀ (lines : list string) (line : string) (e : SubtitleEntry),
       parse_timestamp (timestamp_part line) = Some 0 →
       entries (process_line (run_lines lines) line) =
         entries (run_lines lines) ++ [e] →
       start_seconds e = 1).
Proof.
  split; [vm_compute; reflexivity|]. split; [vm_compute; reflexivity|].
  split; [vm_compute; reflexivity|].
  intros Hall.
  specialize (Hall ["[00:00] A"] "[00:00] B" (mkEntry 2 5 8 "B")).
  assert (start_seconds (mkEntry 2 5 8 "B") = 1) as H.
  { apply Hall; vm_compute; reflexivity. }
  discriminate H.
Qed.

(** ** The quotient of [split_audio] in binary64

    [SFdiv] first divides the mantissas with enough extra bits
    ([SFdiv_core_binary]), then [binary_round_aux] shifts the quotient to 53
    bits, rounds to nearest even, and shifts once more if the rounding
    carried.  For operands below 2^53 the lemmas follow these steps and show
    that the ceiling of the rounded quotient is the ceiling of the exact
    one. *)

Lemma digits2_pos_spec p :
  2 ^ (Zpos (digits2_pos p) - 1) ≤ Zpos p < 2 ^ Zpos (digits2_pos p).
Proof.
  induction p as [p IH|p IH|]; simpl digits2_pos.
  - rewrite Pos2Z.inj_succ.
    replace (Z.succ (Zpos (digits2_pos p)) - 1) with (Z.succ (Zpos (digits2_pos p) - 1)) by lia.
    rewrite !Z.pow_succ_r by lia. lia.
  - rewrite Pos2Z.inj_succ.
    replace (Z.succ (Zpos (digits2_pos p)) - 1) with (Z.succ (Zpos (digits2_pos p) - 1)) by lia.
    rewrite !Z.pow_succ_r by lia. lia.
  - simpl. lia.
Qed.

Lemma Zdigits2_unique z n :
  0 < n → 2 ^ (n - 1) ≤ z < 2 ^ n → Zdigits2 z = n.
Proof.
  intros Hn [Hlo Hhi].
  assert (0 < z) as Hz by (pose proof (Z.pow_pos_nonneg 2 (n - 1)); lia).
  destruct z as [|p|p]; try lia. simpl.
  pose proof (digits2_pos_spec p) as [Hlo' Hhi'].
  set (d := Zpos (digits2_pos p)) in *.
  destruct (Z.lt_trichotomy d n) as [Hlt|[Heq|Hgt]]; [|done|].
  - assert (2 ^ d ≤ 2 ^ (n - 1)) by (apply Z.pow_le_mono_r; lia). lia.
  - assert (2 ^ n ≤ 2 ^ (d - 1)) by (apply Z.pow_le_mono_r; lia). lia.
Qed.

Lemma shr_fexp_keep m e l :
  Zdigits2 m = 53 → -1074 ≤ e →
  shr_fexp 53 1024 m e l = (shr_record_of_loc m l, e).
Proof.
  intros Hd He. unfold shr_fexp, fexp, emin. rewrite Hd.
  replace (Z.max (53 + e - 53) (3 - 1024 - 53) - e) with 0 by lia.
  reflexivity.
Qed.

Lemma shr_fexp_shift m e l :
  Zdigits2 m = 54 → -1075 ≤ e →
  shr_fexp 53 1024 m e l = (shr_1 (shr_record_of_loc m l), e + 1).
Proof.
  intros Hd He. unfold shr_fexp, fexp, emin. rewrite Hd.
  replace (Z.max (54 + e - 53) (3 - 1024 - 53) - e) with 1 by lia.
  reflexivity.
Qed.

Lemma shr_1_halves m r s :
  2 ≤ m →
  shr_1 {| shr_m := m; shr_r := r; shr_s := s |} =
  {| shr_m := m / 2; shr_r := Z.odd m; shr_s := r || s |}.
Proof.
  intros Hm. destruct m as [|p|p]; try lia.
  destruct p as [p|p|]; try lia; simpl shr_1.
  - f_equal. rewrite Pos2Z.inj_xI. apply (Z.div_unique _ _ _ 1); lia.
  - f_equal. rewrite Pos2Z.inj_xO. apply (Z.div_unique _ _ _ 0); lia.
Qed.


Lemma new_location_spec b r :
  0 ≤ r < b → new_location b r = loc_of (2 * r) b.
Proof.
  intros Hr. unfold new_location, loc_of.
  destruct (Z.eqb_spec (2 * r) 0) as [Hz|Hnz].
  - assert (r = 0) as -> by lia. by destruct (Z.even b).
  - destruct (Z.even b) eqn:Hev.
    + unfold new_location_even. destruct (Z.eqb_spec r 0); [lia|done].
    + unfold new_location_odd. destruct (Z.eqb_spec r 0); [lia|]. f_equal.
      assert (Z.odd b = true) as Hodd by (by rewrite <- Z.negb_even, Hev).
      apply Z.odd_spec in Hodd as [c Hc].
      destruct (Z.compare_spec (2 * r + 1) b), (Z.compare_spec (2 * r) b);
        lia || done.
Qed.


Lemma math_ceil_finite p e :
  math_ceil (S754_finite false p e) = Some (ceil_scaled (Zpos p) e).
Proof. reflexivity. Qed.

Lemma ceil_scaled_double m e : ceil_scaled (2 * m) e = ceil_scaled m (e + 1).
Proof.
  unfold ceil_scaled.
  destruct (Z.leb_spec 0 e) as [He|He], (Z.leb_spec 0 (e + 1)) as [He'|He'];
    try lia.
  - rewrite Z.pow_add_r by lia. lia.
  - assert (e = -1) as -> by lia. simpl.
    replace (- (2 * m)) with ((- m) * 2) by lia. rewrite Z.div_mul by lia. lia.
  - replace (- e) with (Z.succ (- (e + 1))) by lia.
    rewrite Z.pow_succ_r by lia.
    replace (- (2 * m)) with (2 * (- m)) by lia.
    rewrite Z.div_mul_cancel_l; [done| |lia].
    apply Z.pow_nonzero; lia.
Qed.

Lemma shr_record_of_loc_m m l : shr_m (shr_record_of_loc m l) = m.
Proof. by destruct l as [|[]]. Qed.

Lemma loc_of_shr_record_of_loc m l :
  loc_of_shr_record (shr_record_of_loc m l) = l.
Proof. by destruct l as [|[]]. Qed.

Lemma round_nearest_even_bounds m l :
  m ≤ round_nearest_even m l ≤ m + 1.
Proof.
  unfold round_nearest_even. destruct l as [|[]]; try lia.
  destruct (Z.even m); lia.
Qed.

(** the second normalisation of [binary_round_aux]: the value is kept *)
Lemma second_shift mr e :
  2 ^ 52 ≤ mr ≤ 2 ^ 53 → -1074 ≤ e ≤ 0 →
  ∃ p e'', shr_m (shr_fexp 53 1024 mr e loc_Exact).1 = Zpos p ∧
           (shr_fexp 53 1024 mr e loc_Exact).2 = e'' ∧
           e'' ≤ 1 ∧ ceil_scaled (Zpos p) e'' = ceil_scaled mr e.
Proof.
  intros Hm He.
  destruct (decide (mr = 2 ^ 53)) as [->|Hne].
  - rewrite shr_fexp_shift; [|done|lia]. simpl.
    exists (Z.to_pos (2 ^ 52)), (e + 1). split; [done|]. split; [done|].
    split; [lia|]. rewrite <- ceil_scaled_double. done.
  - rewrite shr_fexp_keep; [|apply Zdigits2_unique; lia|lia]. simpl.
    exists (Z.to_pos mr), e. rewrite Z2Pos.id by lia. split; [done|].
    split; [done|]. split; [lia|done].
Qed.

Lemma shift_location q b r :
  0 ≤ r < b → 2 ≤ q →
  shr_m (shr_1 (shr_record_of_loc q (loc_of (2 * r) b))) = q / 2 ∧
  loc_of_shr_record (shr_1 (shr_record_of_loc q (loc_of (2 * r) b))) =
    loc_of (Z.b2z (Z.odd q) * b + r) b.
Proof.
  intros Hr Hq. unfold loc_of.
  destruct (Z.eqb_spec (2 * r) 0) as [Hz|Hnz].
  - assert (r = 0) as -> by lia. simpl shr_record_of_loc.
    rewrite shr_1_halves by done. simpl. split; [done|].
    destruct (Z.odd q); simpl.
    + replace (1 * b + 0) with b by lia.
      destruct (Z.eqb_spec b 0); [lia|]. by rewrite Z.compare_refl.
    + done.
  - assert (shr_1 (shr_record_of_loc q (loc_Inexact (2 * r ?= b))) =
            {| shr_m := q / 2; shr_r := Z.odd q; shr_s := true |}) as ->.
    { destruct (2 * r ?= b); simpl shr_record_of_loc;
        rewrite shr_1_halves by done; done. }
    simpl. split; [done|].
    destruct (Z.odd q); simpl.
    + destruct (Z.eqb_spec (1 * b + r) 0); [lia|].
      destruct (Z.compare_spec (1 * b + r) b); (lia || done).
    + destruct (Z.eqb_spec (0 * b + r) 0); [lia|].
      destruct (Z.compare_spec (0 * b + r) b); (lia || done).
Qed.

(** [binary_round_aux] on a quotient [q] with remainder [r] of a division
    by [b]: the mantissa kept is [m1], the exact value lies [r2] halves of
    [b] above it, and the result is [m1] rounded to nearest even. *)
Lemma binary_round_aux_quotient q e b r :
  2 ^ 52 ≤ q < 2 ^ 54 → -1074 ≤ e ≤ -1 → 0 ≤ r < b →
  ∃ m1 e1 r2 p e'',
    2 ^ 52 ≤ m1 < 2 ^ 53 ∧ e ≤ e1 ≤ 0 ∧ 0 ≤ r2 < 2 * b ∧
    2 * (q * b + r) = 2 ^ (e1 - e) * (2 * m1 * b + r2) ∧
    binary_round_aux 53 1024 false q e (loc_of (2 * r) b) =
      S754_finite false p e'' ∧
    ceil_scaled (Zpos p) e'' =
      ceil_scaled (round_nearest_even m1 (loc_of r2 b)) e1.
Proof.
  intros Hq He Hr. unfold binary_round_aux.
  destruct (decide (q < 2 ^ 53)) as [Hlt|Hge].
  - rewrite shr_fexp_keep; [|apply Zdigits2_unique; lia|lia].
    rewrite shr_record_of_loc_m, loc_of_shr_record_of_loc.
    pose proof (round_nearest_even_bounds q (loc_of (2 * r) b)) as Hb.
    destruct (second_shift (round_nearest_even q (loc_of (2 * r) b)) e)
      as (p & e'' & Hp & He'' & Hle & Hceil); [lia|lia|].
    destruct (shr_fexp 53 1024 _ e loc_Exact) as [mrs ex]. simpl in *.
    rewrite Hp, He''.
    exists q, e, (2 * r), p, e''. rewrite Z.sub_diag.
    repeat split; try lia.
    destruct (Z.leb_spec e'' (1024 - 53)); [done|lia].
  - rewrite shr_fexp_shift; [|apply Zdigits2_unique; lia|lia].
    destruct (shift_location q b r) as [Hm Hl]; [lia|lia|].
    rewrite Hm, Hl.
    assert (2 ^ 52 ≤ q / 2 < 2 ^ 53) as Hq2.
    { split; [apply Z.div_le_lower_bound; lia|apply Z.div_lt_upper_bound; lia]. }
    pose proof (round_nearest_even_bounds (q / 2)
                  (loc_of (Z.b2z (Z.odd q) * b + r) b)) as Hb.
    destruct (second_shift
                (round_nearest_even (q / 2) (loc_of (Z.b2z (Z.odd q) * b + r) b))
                (e + 1)) as (p & e'' & Hp & He'' & Hle & Hceil); [lia|lia|].
    destruct (shr_fexp 53 1024 _ (e + 1) loc_Exact) as [mrs ex]. simpl in *.
    rewrite Hp, He''.
    exists (q / 2), (e + 1), (Z.b2z (Z.odd q) * b + r), p, e''.
    replace (e + 1 - e) with 1 by lia.
    pose proof (Z.div2_odd q) as Hdiv. rewrite Z.div2_div in Hdiv.
    repeat split; try lia.
    + destruct (Z.odd q); simpl; lia.
    + destruct (Z.odd q); simpl Z.b2z in *; lia.
    + destruct (Z.leb_spec e'' (1024 - 53)); [done|lia].
Qed.

Lemma ceil_scaled_nonpos m e :
  e ≤ 0 → ceil_scaled m e = - ((- m) / 2 ^ (- e)).
Proof.
  intros He. unfold ceil_scaled. destruct (Z.leb_spec 0 e) as [H0|H0]; [|done].
  assert (e = 0) as -> by lia. simpl. rewrite Z.div_1_r. lia.
Qed.


Lemma ceil_div_exact k b : 0 < b → ceil_div (b * k) b = k.
Proof.
  intros Hb. unfold ceil_div. symmetry.
  apply (Z.div_unique _ _ _ (b - 1)); lia.
Qed.

Lemma ceil_div_inexact k r b : 0 < r < b → ceil_div (b * k + r) b = k + 1.
Proof.
  intros Hr. unfold ceil_div. symmetry.
  apply (Z.div_unique _ _ _ (r - 1)); lia.
Qed.

Lemma neg_div_ceil m c P : 0 < P → (c - 1) * P < m ≤ c * P → - ((- m) / P) = c.
Proof.
  intros HP Hm.
  assert ((- m) / P = - c) as ->; [|lia].
  symmetry. apply (Z.div_unique _ _ _ (c * P - m)); lia.
Qed.

(** The rounded quotient has the ceiling of the exact quotient, as long as
    the dividend has at most 53 bits. *)
Lemma ceil_of_rounded a b m1 P r2 :
  0 < a < 2 ^ 53 → 0 < b → 1 ≤ P → 2 ^ 52 ≤ m1 →
  2 * a * P = 2 * m1 * b + r2 → 0 ≤ r2 < 2 * b →
  - ((- round_nearest_even m1 (loc_of r2 b)) / P) = ceil_div a b.
Proof.
  intros Ha Hb HP Hm Heq Hr2.
  pose proof (Z.div_mod a b ltac:(lia)) as Hdm.
  pose proof (Z.mod_pos_bound a b ltac:(lia)) as Hmod.
  set (k := a / b) in *. set (r0 := a mod b) in *.
  assert (0 ≤ k) as Hk by (apply Z.div_pos; lia).
  destruct (decide (r0 = 0)) as [Hr0|Hr0].
  - assert (a = b * k) as Ha' by lia.
    assert (m1 = k * P) as Hm1 by nia.
    assert (r2 = 0) as -> by nia.
    unfold loc_of. simpl. rewrite Ha', ceil_div_exact by lia.
    apply neg_div_ceil; nia.
  - rewrite Hdm, ceil_div_inexact by lia.
    pose proof (round_nearest_even_bounds m1 (loc_of r2 b)) as Hb'.
    apply neg_div_ceil; [lia|].
    replace (k + 1 - 1) with k by lia.
    assert (m1 < (k + 1) * P) as Hup by nia.
    assert (k * P ≤ m1) as Hlo by nia.
    split; [|lia].
    destruct (decide (k * P = m1)) as [Heqm|Hnem]; [|lia].
    assert (r2 = 2 * P * r0) as Hr2' by nia.
    assert (b < 2 * P) as HbP by nia.
    assert (b < r2) as Hgt by nia.
    unfold loc_of. destruct (Z.eqb_spec r2 0); [lia|].
    destruct (Z.compare_spec r2 b); try lia. simpl. lia.
Qed.

Lemma true_divide_small a b :
  0 < a < 2 ^ 53 → 0 < b < 2 ^ 53 →
  ∃ p e, true_divide a b = Some (S754_finite false p e) ∧
         ceil_scaled (Zpos p) e = ceil_div a b.
Proof.
  intros Ha Hb. unfold true_divide.
  destruct (Z.eqb_spec b 0); [lia|].
  destruct a as [|pa|pa]; try lia. destruct b as [|pb|pb]; try lia.
  simpl float_of_int. unfold SFdiv, SFdiv_core_binary.
  pose proof (digits2_pos_spec pa) as Hda.
  pose proof (digits2_pos_spec pb) as Hdb.
  simpl Zdigits2.
  set (d1 := Zpos (digits2_pos pa)) in *. set (d2 := Zpos (digits2_pos pb)) in *.
  assert (1 ≤ d1 ≤ 53) as Hd1.
  { split; [lia|]. destruct (decide (d1 ≤ 53)); [done|].
    assert (2 ^ 53 ≤ 2 ^ (d1 - 1)) by (apply Z.pow_le_mono_r; lia). lia. }
  assert (1 ≤ d2 ≤ 53) as Hd2.
  { split; [lia|]. destruct (decide (d2 ≤ 53)); [done|].
    assert (2 ^ 53 ≤ 2 ^ (d2 - 1)) by (apply Z.pow_le_mono_r; lia). lia. }
  unfold fexp, emin.
  replace (Z.min (Z.max (d1 + 0 - (d2 + 0) - 53) (3 - 1024 - 53)) (0 - 0))
    with (d1 - d2 - 53) by lia.
  replace (0 - 0 - (d1 - d2 - 53)) with (53 + d2 - d1) by lia.
  set (s := 53 + d2 - d1).
  assert (1 ≤ s ≤ 105) as Hs by lia.
  assert ((match s with
           | 0 => Z.pos pa
           | Z.pos _ => Z.shiftl (Z.pos pa) s
           | Z.neg _ => 0
           end) = Z.pos pa * 2 ^ s) as ->.
  { destruct s; try lia. apply Z.shiftl_mul_pow2. lia. }
  pose proof (Z_div_mod (Z.pos pa * 2 ^ s) (Z.pos pb) ltac:(lia)) as Hdiv.
  destruct (Z.div_eucl (Z.pos pa * 2 ^ s) (Z.pos pb)) as [q r].
  destruct Hdiv as [Hqr Hr].
  rewrite new_location_spec by done.
  assert (2 ^ (d1 - 1) * 2 ^ s = 2 ^ 53 * 2 ^ (d2 - 1)) as Hpow.
  { rewrite <- !Z.pow_add_r by lia. f_equal. lia. }
  assert (2 ^ d1 = 2 * 2 ^ (d1 - 1)) as Hp1.
  { replace d1 with (Z.succ (d1 - 1)) at 1 by lia. apply Z.pow_succ_r. lia. }
  assert (2 ^ d2 = 2 * 2 ^ (d2 - 1)) as Hp2.
  { replace d2 with (Z.succ (d2 - 1)) at 1 by lia. apply Z.pow_succ_r. lia. }
  assert (0 < 2 ^ s) as HT by (apply Z.pow_pos_nonneg; lia).
  assert (0 < 2 ^ (d1 - 1)) as HX by (apply Z.pow_pos_nonneg; lia).
  assert (0 < 2 ^ (d2 - 1)) as HY by (apply Z.pow_pos_nonneg; lia).
  set (T := 2 ^ s) in *. set (X := 2 ^ (d1 - 1)) in *.
  set (Y := 2 ^ (d2 - 1)) in *.
  assert (2 ^ 52 ≤ q < 2 ^ 54) as Hq.
  { change (2 ^ 52) with 4503599627370496 in *.
    change (2 ^ 53) with 9007199254740992 in *.
    change (2 ^ 54) with 18014398509481984 in *. split; nia. }
  replace (d1 - d2 - 53) with (- s) by lia.
  destruct (binary_round_aux_quotient q (- s) (Z.pos pb) r)
    as (m1 & e1 & r2 & p & e'' & Hm1 & He1 & Hr2 & Hrel & Hres & Hceil);
    [done|lia|done|].
  simpl xorb. rewrite Hres. exists p, e''. split; [done|].
  rewrite Hceil, ceil_scaled_nonpos by lia.
  assert (0 < 2 ^ (- e1)) as HP by (apply Z.pow_pos_nonneg; lia).
  apply ceil_of_rounded; try lia.
  assert (T = 2 ^ (e1 - - s) * 2 ^ (- e1)) as HTP.
  { unfold T. rewrite <- Z.pow_add_r by lia. f_equal. lia. }
  assert (0 < 2 ^ (e1 - - s)) as Hc by (apply Z.pow_pos_nonneg; lia).
  set (c := 2 ^ (e1 - - s)) in *. set (P := 2 ^ (- e1)) in *.
  assert (c * (2 * Z.pos pa * P) = c * (2 * m1 * Z.pos pb + r2)) as Hcc by nia.
  apply Z.mul_reg_l in Hcc; lia.
Qed.

Lemma num_segments_exact length_ms segment_duration :
  0 ≤ length_ms < 2 ^ 53 → 0 < segment_duration < 2 ^ 53 →
  num_segments length_ms segment_duration =
    Some (ceil_div length_ms segment_duration).
Proof.
  intros Hl Hs. unfold num_segments.
  destruct (decide (length_ms = 0)) as [->|Hne].
  - unfold true_divide. destruct (Z.eqb_spec segment_duration 0); [lia|].
    destruct segment_duration as [|p|p]; try lia. simpl.
    f_equal. unfold ceil_div. symmetry. apply Z.div_small. lia.
  - destruct (true_divide_small length_ms segment_duration)
      as (p & e & -> & Hc); [lia|lia|].
    simpl. by rewrite <- Hc.
Qed.

(** ** The segments of [split_audio] *)

Lemma ceil_div_bounds a b :
  0 ≤ a → 0 < b → (ceil_div a b - 1) * b < a ≤ ceil_div a b * b.
Proof.
  intros Ha Hb. unfold ceil_div.
  pose proof (Z.div_mod (a + b - 1) b ltac:(lia)) as Hdm.
  pose proof (Z.mod_pos_bound (a + b - 1) b ltac:(lia)) as Hmod.
  nia.
Qed.

Lemma length_range n : length (range n) = Z.to_nat n.
Proof. unfold range. by rewrite length_fmap, length_seq. Qed.

Lemma lookup_range n (i : nat) :
  (i < Z.to_nat n)%nat → range n !! i = Some (Z.of_nat i).
Proof.
  intros Hi. unfold range. rewrite list_lookup_fmap, lookup_seq_lt by done.
  done.
Qed.

Lemma lookup_segments length_ms segment_duration n (i : nat) seg :
  (make_segment length_ms segment_duration <$> range n) !! i = Some seg →
  (i < Z.to_nat n)%nat ∧
  seg = make_segment length_ms segment_duration (Z.of_nat i).
Proof.
  intros Hi. pose proof (lookup_lt_Some _ _ _ Hi) as Hlt.
  rewrite length_fmap, length_range in Hlt. split; [done|].
  rewrite list_lookup_fmap, lookup_range in Hi by done.
  by injection Hi.
Qed.

(** C7 (as amended). For a recording of [length_ms] milliseconds and a
    segment size of [segment_duration] milliseconds, both below 2^53 and the
    size positive, [split_audio] returns exactly [ceil (length_ms /
    segment_duration)] segments; segment [i] is the slice from
    [i * segment_duration] to the end of the recording or the next multiple,
    whichever comes first, and is not empty; every millisecond of the
    recording lies in exactly one segment; and the start offset kept for a
    segment is its start in milliseconds divided by 1000, truncated. *)
Theorem split_audio_covers (length_ms segment_duration : Z) :
  0 ≤ length_ms < 2 ^ 53 → 0 < segment_duration < 2 ^ 53 →
  ∃ segments,
    split_audio length_ms segment_duration = Some segments ∧
    Z.of_nat (length segments) = ceil_div length_ms segment_duration ∧
    (Z.of_nat (length segments) - 1) * segment_duration < length_ms
      ≤ Z.of_nat (length segments) * segment_duration ∧
    (∀ (i : nat) seg, segments !! i = Some seg →
       slice_start seg = Z.of_nat i * segment_duration ∧
       slice_end seg = Z.min ((Z.of_nat i + 1) * segment_duration) length_ms ∧
       slice_start seg < slice_end seg ≤ length_ms ∧
       start_time seg = slice_start seg ÷ 1000) ∧
    (∀ ms, 0 ≤ ms < length_ms →
       ∃ (i : nat) seg, segments !! i = Some seg ∧
         slice_start seg ≤ ms < slice_end seg ∧
         ∀ (j : nat) seg', segments !! j = Some seg' →
           slice_start seg' ≤ ms < slice_end seg' → j = i).
Proof.
  intros Hl Hs. unfold split_audio.
  rewrite num_segments_exact by done. simpl.
  pose proof (ceil_div_bounds length_ms segment_duration ltac:(lia) ltac:(lia))
    as Hn.
  set (n := ceil_div length_ms segment_duration) in *.
  assert (0 ≤ n) as Hn0 by nia.
  eexists. split; [reflexivity|].
  rewrite length_fmap, length_range, Z2Nat.id by done.
  split; [done|]. split; [done|]. split.
  - intros i seg [Hi ->]%lookup_segments. simpl.
    assert (Z.of_nat i < n) as Hi' by lia.
    repeat split; try nia.
    rewrite Z.quot_div_nonneg; [done|nia|lia].
  - intros ms Hms.
    pose proof (Z.div_mod ms segment_duration ltac:(lia)) as Hdm.
    pose proof (Z.mod_pos_bound ms segment_duration ltac:(lia)) as Hmod.
    set (k := ms / segment_duration) in *.
    assert (0 ≤ k) as Hk by (apply Z.div_pos; lia).
    assert (k < n) as Hkn by nia.
    exists (Z.to_nat k), (make_segment length_ms segment_duration k).
    split.
    { rewrite list_lookup_fmap, lookup_range by lia. simpl.
      by rewrite Z2Nat.id by done. }
    simpl. split; [nia|].
    intros j seg' [Hj ->]%lookup_segments. simpl. intros Hin.
    assert (Z.of_nat j = k) by nia. lia.
Qed.

Lemma split_audio_covers_witness :
  ∃ segments,
    split_audio 650000 300000 = Some segments ∧
    Z.of_nat (length segments) = ceil_div 650000 300000 ∧
    (Z.of_nat (length segments) - 1) * 300000 < 650000
      ≤ Z.of_nat (length segments) * 300000 ∧
    (∀ (i : nat) seg, segments !! i = Some seg →
       slice_start seg = Z.of_nat i * 300000 ∧
       slice_end seg = Z.min ((Z.of_nat i + 1) * 300000) 650000 ∧
       slice_start seg < slice_end seg ≤ 650000 ∧
       start_time seg = slice_start seg ÷ 1000) ∧
    (∀ ms, 0 ≤ ms < 650000 →
       ∃ (i : nat) seg, segments !! i = Some seg ∧
         slice_start seg ≤ ms < slice_end seg ∧
         ∀ (j : nat) seg', segments !! j = Some seg' →
           slice_start seg' ≤ ms < slice_end seg' → j = i).
Proof. apply (split_audio_covers 650000 300000); lia. Defined.

(** C7 as first stated fails beyond 53 bits: the quotient of 2^53 + 1 by 1
    rounds to 2^53 before the ceiling is taken, so one segment is missing. *)
Lemma split_audio_count_counterexample :
  ∃ segments,
    split_audio (2 ^ 53 + 1) 1 = Some segments ∧
    Z.of_nat (length segments) = 2 ^ 53 ∧
    ceil_div (2 ^ 53 + 1) 1 = 2 ^ 53 + 1 ∧
    Z.of_nat (length segments) ≠ ceil_div (2 ^ 53 + 1) 1.
Proof.
  assert (num_segments (2 ^ 53 + 1) 1 = Some (2 ^ 53)) as Hn
    by (vm_compute; reflexivity).
  assert (ceil_div (2 ^ 53 + 1) 1 = 2 ^ 53 + 1) as Hc
    by (vm_compute; reflexivity).
  unfold split_audio. rewrite Hn, Hc.
  eexists. split; [reflexivity|].
  rewrite length_fmap, length_range, Z2Nat.id by lia. lia.
Qed.

(** ** The transcription loop *)

Section TranscribeFacts.

Variable service : string → string → response.

Lemma transcribe_segment_acc acc seg :
  transcribe_segment service acc seg =
  acc ++ transcribe_segment service [] seg.
Proof.
  unfold transcribe_segment. destruct (service _ _) as [|r].
  - by rewrite app_nil_r.
  - destruct (Py.truthy _); [done|by rewrite app_nil_r].
Qed.

Lemma fold_transcribe_acc segs acc :
  fold_left (transcribe_segment service) segs acc =
  acc ++ transcribe_segments service segs.
Proof.
  unfold transcribe_segments. revert acc.
  induction segs as [|seg segs IH]; intros acc; simpl.
  - by rewrite app_nil_r.
  - rewrite IH, (IH (transcribe_segment service [] seg)).
    by rewrite (transcribe_segment_acc acc), app_assoc.
Qed.

Lemma transcribe_segments_app segs1 segs2 :
  transcribe_segments service (segs1 ++ segs2) =
  transcribe_segments service segs1 ++ transcribe_segments service segs2.
Proof.
  unfold transcribe_segments at 1. rewrite fold_left_app.
  apply fold_transcribe_acc.
Qed.

Lemma transcribe_segments_cons seg segs :
  transcribe_segments service (seg :: segs) =
  transcribe_segment service [] seg ++ transcribe_segments service segs.
Proof. apply (fold_transcribe_acc segs). Qed.

Lemma transcribe_segment_fails seg :
  chunk_fails service seg → transcribe_segment service [] seg = [].
Proof.
  unfold transcribe_segment. intros [->|(r & -> & ->)]; done.
Qed.

Lemma transcribe_segment_succeeds seg r :
  service (path seg) (get_segment_prompt (start_time seg)) = Returns r →
  Py.truthy (Py.strip r) = true →
  transcribe_segment service [] seg = [r].
Proof. unfold transcribe_segment. by intros -> ->. Qed.

Lemma transcribe_segments_elem seg r segs :
  seg ∈ segs →
  service (path seg) (get_segment_prompt (start_time seg)) = Returns r →
  Py.truthy (Py.strip r) = true →
  r ∈ transcribe_segments service segs.
Proof.
  intros (l1 & l2 & ->)%list_elem_of_split Hs Ht.
  rewrite transcribe_segments_app, transcribe_segments_cons.
  rewrite (transcribe_segment_succeeds _ _ Hs Ht).
  apply elem_of_app. right. by apply elem_of_cons; left.
Qed.

End TranscribeFacts.

Lemma join_elem sep (r : string) (parts : list string) :
  r ∈ parts → ∃ before after, Py.join sep parts = before +:+ r +:+ after.
Proof.
  induction parts as [|p parts IH]; [by intros ?%elem_of_nil|].
  intros [->|Hin]%elem_of_cons.
  - destruct parts as [|p' parts].
    + exists "", "". simpl. apply to_list_inj.
      by rewrite !to_list_app, app_nil_r.
    + exists "", (sep +:+ Py.join sep (p' :: parts)). done.
  - destruct (IH Hin) as (b & a & Hj).
    destruct parts as [|p' parts]; [by apply elem_of_nil in Hin|].
    exists (p +:+ sep +:+ b), a.
    change (Py.join sep (p :: p' :: parts))
      with (p +:+ sep +:+ Py.join sep (p' :: parts)).
    rewrite Hj. apply to_list_inj. rewrite !to_list_app.
    by rewrite <- !app_assoc.
Qed.

Lemma split_on_app c s1 s2 :
  Py.split_on c (s1 +:+ String c s2) = Py.split_on c s1 ++ Py.split_on c s2.
Proof.
  induction s1 as [|d s1 IH].
  - change ("" +:+ String c s2) with (String c s2). simpl.
    by rewrite (proj2 (ascii_eqb_true c c)).
  - change (String d s1 +:+ String c s2) with (String d (s1 +:+ String c s2)).
    simpl. rewrite IH. destruct (Py.ascii_eqb c d); [done|].
    pose proof (split_on_nonempty c s1) as Hne.
    by destruct (Py.split_on c s1).
Qed.

Lemma split_on_join (parts : list string) :
  parts ≠ [] →
  Py.split_on nl (Py.join newline parts) = concat (Py.split_on nl <$> parts).
Proof.
  induction parts as [|p parts IH]; [done|]. intros _.
  destruct parts as [|p' parts].
  - simpl. by rewrite app_nil_r.
  - change (Py.join newline (p :: p' :: parts))
      with (p +:+ String nl (Py.join newline (p' :: parts))).
    rewrite split_on_app, IH by done. done.
Qed.

(** The lines the normaliser reads are the lines of the surviving responses,
    in order. *)
Lemma normalize_join (parts : list string) :
  normalize (Py.join newline parts) =
  run_lines (concat (Py.split_on nl <$> parts)).
Proof.
  unfold normalize. destruct parts as [|p parts]; [done|].
  by rewrite split_on_join.
Qed.

(** C6. Failure of one chunk is isolated.  When the calls for one segment
    fail (one of them raises, or the response is blank), the iteration leaves
    the list of transcripts as it was; the list collected over all segments
    is the list collected over the segments before it followed by the list
    collected over the segments after it; every other segment whose response
    is not blank has its raw text in that list and inside the plain
    transcript; the normaliser reads the lines of those responses in chunk
    order; and the job completes with the transcript and the subtitles of
    the other segments. *)
Theorem chunk_failure_is_isolated (service : string → string → response)
    (before after : list segment) (seg : segment) :
  chunk_fails service seg →
  (∀ acc, transcribe_segment service acc seg = acc) ∧
  transcribe_segments service (before ++ seg :: after) =
    transcribe_segments service before ++ transcribe_segments service after ∧
  (∀ seg' r, seg' ∈ before ++ after →
     service (path seg') (get_segment_prompt (start_time seg')) = Returns r →
     Py.truthy (Py.strip r) = true →
     r ∈ transcribe_segments service (before ++ seg :: after) ∧
     ∃ pre post,
       Py.join newline (transcribe_segments service (before ++ seg :: after))
       = pre +:+ r +:+ post) ∧
  normalize (Py.join newline (transcribe_segments service (before ++ seg :: after)))
    = run_lines (concat (Py.split_on nl <$>
        (transcribe_segments service before ++ transcribe_segments service after))) ∧
  (∀ length_ms,
     split_audio length_ms 300000 = Some (before ++ seg :: after) →
     transcribe service (Some length_ms) =
       JobDone
         (Py.join newline (transcribe_segments service (before ++ after)))
         (format_srt (Py.join newline (transcribe_segments service (before ++ after))))).
Proof.
  intros Hfail.
  assert (transcribe_segments service (before ++ seg :: after) =
          transcribe_segments service before ++ transcribe_segments service after)
    as Heq.
  { rewrite transcribe_segments_app, transcribe_segments_cons.
    by rewrite transcribe_segment_fails. }
  split.
  { intros acc. rewrite transcribe_segment_acc, transcribe_segment_fails by done.
    apply app_nil_r. }
  split; [done|]. split; [|split].
  - intros seg' r Hin Hs Ht.
    assert (r ∈ transcribe_segments service (before ++ seg :: after)) as Hr.
    { rewrite Heq, <- transcribe_segments_app.
      by apply (transcribe_segments_elem service seg'). }
    split; [done|]. by apply join_elem.
  - by rewrite normalize_join, Heq.
  - intros length_ms Hsplit. unfold transcribe. rewrite Hsplit.
    by rewrite Heq, <- transcribe_segments_app.
Qed.

Lemma chunk_failure_is_isolated_witness :
  transcribe sample_service (Some 1500000) =
  JobDone
    (Py.join newline
       ["[00:05] one"; "[10:05] three"; "[15:05] four"; "[20:05] five"])
    (format_srt
       (Py.join newline
          ["[00:05] one"; "[10:05] three"; "[15:05] four"; "[20:05] five"])).
Proof.
  destruct (chunk_failure_is_isolated sample_service
              [make_segment 1500000 300000 0]
              (make_segment 1500000 300000 <$> [2; 3; 4])
              (make_segment 1500000 300000 1))
    as (_ & _ & _ & _ & H).
  - left. vm_compute. reflexivity.
  - rewrite (H 1500000) by (vm_compute; reflexivity). vm_compute. reflexivity.
Defined.

(** * Further properties of the code *)

(** ** More facts about the string primitives *)

Section MoreStrings.

Implicit Types (s w : string) (c : ascii) (p : ascii → bool).

Lemma of_list_app (l1 l2 : list ascii) :
  Py.of_list (l1 ++ l2) = Py.of_list l1 +:+ Py.of_list l2.
Proof. induction l1 as [|c l1 IH]; [done|]. simpl. by rewrite IH. Qed.

Lemma rev_app s1 s2 : Py.rev (s1 +:+ s2) = Py.rev s2 +:+ Py.rev s1.
Proof. unfold Py.rev. by rewrite to_list_app, rev_app_distr, of_list_app. Qed.

Lemma rev_rev s : Py.rev (Py.rev s) = s.
Proof. unfold Py.rev. by rewrite to_of_list, rev_involutive, of_to_list. Qed.

Lemma app_empty_r s : s +:+ "" = s.
Proof. apply to_list_inj. by rewrite to_list_app, app_nil_r. Qed.

Lemma app_assoc_s s1 s2 s3 : (s1 +:+ s2) +:+ s3 = s1 +:+ s2 +:+ s3.
Proof. apply to_list_inj. by rewrite !to_list_app, app_assoc. Qed.

Lemma length_app_s s1 s2 :
  String.length (s1 +:+ s2) = (String.length s1 + String.length s2)%nat.
Proof. induction s1 as [|c s1 IH]; [done|]. simpl. by rewrite <- IH. Qed.

Lemma all_chars_rev p s : all_chars p s → all_chars p (Py.rev s).
Proof.
  unfold all_chars, Py.rev. rewrite to_of_list, !Forall_forall.
  intros H c Hc. apply H. by apply list_elem_of_In, in_rev, list_elem_of_In.
Qed.

Lemma no_chars_rev p s : no_chars p s → no_chars p (Py.rev s).
Proof.
  unfold no_chars, Py.rev. rewrite to_of_list, !Forall_forall.
  intros H c Hc. apply H. by apply list_elem_of_In, in_rev, list_elem_of_In.
Qed.

Lemma no_chars_app p s1 s2 :
  no_chars p (s1 +:+ s2) ↔ no_chars p s1 ∧ no_chars p s2.
Proof. unfold no_chars. rewrite to_list_app. apply Forall_app. Qed.

Lemma dropwhile_all p s1 s2 :
  all_chars p s1 → Py.dropwhile p (s1 +:+ s2) = Py.dropwhile p s2.
Proof.
  induction s1 as [|c s1 IH]; [done|]. intros H. inversion H as [|? ? Hc Hs]; subst.
  change (String c s1 +:+ s2) with (String c (s1 +:+ s2)). simpl.
  rewrite Hc. by apply IH.
Qed.

Lemma dropwhile_none p s : no_chars p s → Py.dropwhile p s = s.
Proof.
  destruct s as [|c s]; [done|]. intros H. inversion H as [|? ? Hc Hs]; subst.
  simpl. by rewrite Hc.
Qed.

Lemma dropwhile_none_app p s1 s2 :
  no_chars p s1 → s1 ≠ "" → Py.dropwhile p (s1 +:+ s2) = s1 +:+ s2.
Proof.
  destruct s1 as [|c s1]; [done|]. intros H _. inversion H as [|? ? Hc Hs]; subst.
  change (String c s1 +:+ s2) with (String c (s1 +:+ s2)). simpl. by rewrite Hc.
Qed.

Lemma rev_empty s : Py.rev s = "" → s = "".
Proof. intros H. by rewrite <- (rev_rev s), H. Qed.

(** stripping takes away a wrapping made of the stripped characters only *)
Lemma strip_with_wrapped p s1 s s2 :
  all_chars p s1 → no_chars p s → all_chars p s2 →
  Py.strip_with p (s1 +:+ s +:+ s2) = s.
Proof.
  intros H1 Hs H2. unfold Py.strip_with. rewrite dropwhile_all by done.
  destruct (decide (s = "")) as [->|Hne].
  - change ("" +:+ s2) with s2.
    rewrite <- (app_empty_r s2), dropwhile_all by done. simpl.
    change (Py.rev "") with "". done.
  - rewrite dropwhile_none_app by done.
    rewrite rev_app, dropwhile_all by by apply all_chars_rev.
    rewrite dropwhile_none by by apply no_chars_rev. apply rev_rev.
Qed.

Lemma strip_with_none p s : no_chars p s → Py.strip_with p s = s.
Proof.
  intros Hs. rewrite <- (app_empty_r s) at 1.
  apply (strip_with_wrapped p "" s ""); [constructor|done|constructor].
Qed.

Lemma split_on_none sep s :
  Py.contains sep s = false → Py.split_on sep s = [s].
Proof.
  induction s as [|c s IH]; [done|]. simpl.
  intros [H1 H2]%orb_false_iff. rewrite H1, IH by done. done.
Qed.

Lemma contains_app c s1 s2 :
  Py.contains c (s1 +:+ s2) = Py.contains c s1 || Py.contains c s2.
Proof.
  induction s1 as [|d s1 IH]; [done|].
  change (String d s1 +:+ s2) with (String d (s1 +:+ s2)). simpl.
  by rewrite IH, orb_assoc.
Qed.

Lemma split_on_no_sep sep s w :
  w ∈ Py.split_on sep s → Py.contains sep w = false.
Proof.
  revert w. induction s as [|c s IH]; intros w; simpl.
  - by intros ->%list_elem_of_singleton.
  - destruct (Py.ascii_eqb sep c) eqn:Hc.
    + intros [->|Hw]%elem_of_cons; [done|by apply IH].
    + pose proof (split_on_nonempty sep s) as Hne.
      destruct (Py.split_on sep s) as [|w0 ws]; [done|].
      intros [->|Hw]%elem_of_cons.
      * simpl. rewrite Hc. apply IH. by apply elem_of_cons; left.
      * apply IH. by apply elem_of_cons; right.
Qed.

End MoreStrings.

(** ** Decimal strings *)

Lemma uint_value_of_uint_acc d acc :
  Zpos (Pos.of_uint_acc d acc) = uint_value d (Zpos acc).
Proof.
  revert acc. induction d; intros acc; simpl; rewrite ?IHd; f_equal; lia.
Qed.

Lemma uint_value_of_uint d : Z.of_N (Pos.of_uint d) = uint_value d 0.
Proof.
  induction d; simpl; try done; by rewrite uint_value_of_uint_acc.
Qed.

Lemma uint_value_to_uint p : uint_value (Pos.to_uint p) 0 = Zpos p.
Proof. by rewrite <- uint_value_of_uint, DecimalPos.Unsigned.of_to. Qed.

Lemma string_of_uint_digits d :
  Forall is_digit (Py.to_list (NilEmpty.string_of_uint d)).
Proof. induction d; simpl; constructor; try done; by eexists. Qed.

Lemma int_digits_string_of_uint d acc b :
  d ≠ Decimal.Nil ∨ b = true →
  Py.int_digits (NilEmpty.string_of_uint d) acc b = Some (uint_value d acc).
Proof.
  revert acc b. induction d; intros acc b Hb; simpl.
  1: by destruct Hb as [?| ->].
  all: rewrite IHd by (by right); do 2 f_equal; lia.
Qed.

Lemma is_digit_cases c :
  is_digit c →
  In c ["0"; "1"; "2"; "3"; "4"; "5"; "6"; "7"; "8"; "9"]%char.
Proof.
  intros [d Hd].
  destruct c as [[] [] [] [] [] [] [] []]; vm_compute in Hd; try discriminate Hd;
    simpl; tauto.
Qed.

(** a test that fails on the ten digits fails on every digit string *)
Lemma digits_no_chars (q : ascii → bool) s :
  forallb (λ c, negb (q c)) ["0"; "1"; "2"; "3"; "4"; "5"; "6"; "7"; "8"; "9"]%char
    = true →
  Forall is_digit (Py.to_list s) → no_chars q s.
Proof.
  intros Hq Hs. unfold no_chars. eapply Forall_impl; [exact Hs|].
  intros c Hc%is_digit_cases. rewrite forallb_forall in Hq.
  specialize (Hq c Hc). by destruct (q c).
Qed.

Lemma digits_contains_false c s :
  forallb (λ d, negb (Py.ascii_eqb c d))
    ["0"; "1"; "2"; "3"; "4"; "5"; "6"; "7"; "8"; "9"]%char = true →
  Forall is_digit (Py.to_list s) → Py.contains c s = false.
Proof.
  intros Hq Hs. apply contains_false. intros Hin.
  rewrite Forall_forall in Hs. apply Hs, is_digit_cases in Hin.
  rewrite forallb_forall in Hq. specialize (Hq c Hin).
  by rewrite (proj2 (ascii_eqb_true c c)) in Hq.
Qed.

Lemma count_digits_digit c s :
  is_digit c → Py.count_digits (String c s) = 1 + Py.count_digits s.
Proof. intros [k Hk]. simpl. by rewrite Hk. Qed.

Lemma count_digits_string_of_uint d :
  Py.count_digits (NilEmpty.string_of_uint d) = Z.of_nat (Decimal.nb_digits d).
Proof.
  induction d; [done|..];
    change (Decimal.nb_digits (_ d)) with (S (Decimal.nb_digits d));
    rewrite Nat2Z.inj_succ, <- IHd; cbn [NilEmpty.string_of_uint];
    rewrite count_digits_digit by (by eexists); lia.
Qed.

Lemma length_string_of_uint d :
  String.length (NilEmpty.string_of_uint d) = Decimal.nb_digits d.
Proof. induction d; simpl; by rewrite ?IHd. Qed.

(** a number of [k] digits after [acc] is at least [acc * 10 ^ k] *)
Lemma uint_value_lower d acc :
  0 ≤ acc → acc * 10 ^ Z.of_nat (Decimal.nb_digits d) ≤ uint_value d acc.
Proof.
  revert acc. induction d; intros acc Ha; [simpl; lia|..];
    change (Decimal.nb_digits (_ d)) with (S (Decimal.nb_digits d));
    rewrite Nat2Z.inj_succ, Z.pow_succ_r by lia; cbn [uint_value];
    (etrans; [|apply IHd; lia]);
    pose proof (Z.pow_nonneg 10 (Z.of_nat (Decimal.nb_digits d)) ltac:(lia));
    nia.
Qed.

Lemma uint_value_mono d a b : a ≤ b → uint_value d a ≤ uint_value d b.
Proof. revert a b. induction d; intros a b Hab; simpl; try apply IHd; lia. Qed.

(** the decimal writing of a positive number has no leading zero *)
Lemma to_uint_head p :
  ∃ d, uint_value d 1 ≤ Zpos p ∧
       Decimal.nb_digits (Pos.to_uint p) = S (Decimal.nb_digits d).
Proof.
  pose proof (uint_value_to_uint p) as Hv.
  pose proof (DecimalPos.Unsigned.to_of (Pos.to_uint p)) as Hn.
  rewrite DecimalPos.Unsigned.of_to in Hn. simpl in Hn.
  pose proof (DecimalPos.Unsigned.to_uint_nonzero p) as Hz.
  unfold Decimal.unorm in Hn.
  destruct (Decimal.nzhead (Pos.to_uint p)) as [|u|u|u|u|u|u|u|u|u|u] eqn:Hh;
    [done|by apply DecimalFacts.nzhead_nonzero in Hh|..];
    rewrite Hn in Hv |- *; exists u; (split; [|done]); rewrite <- Hv;
    cbn [uint_value]; apply uint_value_mono; lia.
Qed.

(** a positive number below [10 ^ k] is written with at most [k] digits *)
Lemma nb_digits_bound p k :
  0 ≤ k → Zpos p < 10 ^ k → Z.of_nat (Decimal.nb_digits (Pos.to_uint p)) ≤ k.
Proof.
  intros Hk Hp. destruct (to_uint_head p) as (d & Hd & ->).
  pose proof (uint_value_lower d 1 ltac:(lia)) as Hl.
  assert (10 ^ Z.of_nat (Decimal.nb_digits d) < 10 ^ k) as Hlt by lia.
  apply Z.pow_lt_mono_r_iff in Hlt; lia.
Qed.

Lemma int_literal_string_of_uint d :
  d ≠ Decimal.Nil →
  Z.of_nat (Decimal.nb_digits d) ≤ Py.int_max_str_digits →
  Py.int_literal (NilEmpty.string_of_uint d) = Some (uint_value d 0).
Proof.
  intros Hd Hn. unfold Py.int_literal.
  rewrite count_digits_string_of_uint.
  destruct (Z.leb_spec (Z.of_nat (Decimal.nb_digits d)) Py.int_max_str_digits);
    [|lia].
  apply int_digits_string_of_uint. by left.
Qed.

Lemma int_string_of_uint d :
  d ≠ Decimal.Nil →
  Z.of_nat (Decimal.nb_digits d) ≤ Py.int_max_str_digits →
  Py.int (NilEmpty.string_of_uint d) = Some (uint_value d 0).
Proof.
  intros Hd Hn. unfold Py.int.
  rewrite strip_with_none
    by (apply digits_no_chars; [done|apply string_of_uint_digits]).
  rewrite <- (int_literal_string_of_uint d) by done.
  by destruct d.
Qed.

Lemma str_of_int_pos p :
  Py.str_of_int (Zpos p) = NilEmpty.string_of_uint (Pos.to_uint p).
Proof.
  pose proof (DecimalPos.Unsigned.to_uint_nonnil p) as Hnn.
  unfold Py.str_of_int. simpl. unfold NilZero.string_of_uint.
  by destruct (Pos.to_uint p).
Qed.

Lemma str_of_int_neg p :
  Py.str_of_int (Zneg p) = String "-" (NilEmpty.string_of_uint (Pos.to_uint p)).
Proof.
  pose proof (DecimalPos.Unsigned.to_uint_nonnil p) as Hnn.
  unfold Py.str_of_int. simpl. unfold NilZero.string_of_uint.
  by destruct (Pos.to_uint p).
Qed.

(** [int(str(n)) == n], for a number that [str] accepts *)
Lemma int_str_of_int n :
  Z.abs n < 10 ^ Py.int_max_str_digits → Py.int (Py.str_of_int n) = Some n.
Proof.
  intros Hn. destruct n as [|p|p]; [done| |].
  - pose proof (DecimalPos.Unsigned.to_uint_nonnil p) as Hnn.
    rewrite str_of_int_pos, int_string_of_uint, uint_value_to_uint; [done..|].
    by apply nb_digits_bound.
  - pose proof (DecimalPos.Unsigned.to_uint_nonnil p) as Hnn.
    rewrite str_of_int_neg. unfold Py.int.
    change (String "-" ?s) with ("-" +:+ s).
    rewrite strip_with_none.
    + change ("-" +:+ ?s) with (String "-"%char s). cbn match.
      rewrite int_literal_string_of_uint, uint_value_to_uint; [done..|].
      by apply nb_digits_bound.
    + apply no_chars_app. split; [by repeat constructor|].
      apply digits_no_chars; [done|apply string_of_uint_digits].
Qed.

Lemma str_of_int_inj n m : Py.str_of_int n = Py.str_of_int m → n = m.
Proof.
  unfold Py.str_of_int. intros H. apply DecimalZ.to_int_inj.
  assert (∀ k, NilZero.int_of_string (NilZero.string_of_int (Z.to_int k))
               = Some (Z.to_int k)) as Hisi.
  { intros k. apply NilZero.isi; destruct k as [|p|p]; simpl; try done;
      pose proof (DecimalPos.Unsigned.to_uint_nonnil p); congruence. }
  pose proof (Hisi n) as Hn. rewrite H, Hisi in Hn. by injection Hn.
Qed.

Lemma str_of_int_digits n :
  0 ≤ n → Forall is_digit (Py.to_list (Py.str_of_int n)).
Proof.
  intros Hn. unfold Py.str_of_int. destruct n as [|p|p]; try lia; simpl.
  - repeat constructor. by eexists.
  - pose proof (DecimalPos.Unsigned.to_uint_nonnil p) as Hnn.
    assert (NilZero.string_of_uint (Pos.to_uint p) =
            NilEmpty.string_of_uint (Pos.to_uint p)) as ->.
    { unfold NilZero.string_of_uint. by destruct (Pos.to_uint p). }
    apply string_of_uint_digits.
Qed.

Lemma str_of_int_nonempty n : Py.str_of_int n ≠ "".
Proof.
  destruct n as [|p|p]; [done| |by rewrite str_of_int_neg].
  rewrite str_of_int_pos.
  pose proof (DecimalPos.Unsigned.to_uint_nonnil p) as Hnn.
  by destruct (Pos.to_uint p).
Qed.

Lemma format_02d_digits n :
  0 ≤ n → Forall is_digit (Py.to_list (Py.format_02d n)).
Proof.
  intros Hn. unfold Py.format_02d.
  destruct (_ <? _)%nat; [|by apply str_of_int_digits].
  change ("0" +:+ ?s) with (String "0"%char s). simpl.
  constructor; [by eexists|by apply str_of_int_digits].
Qed.

Lemma format_02d_length n : (2 ≤ String.length (Py.format_02d n))%nat.
Proof.
  unfold Py.format_02d. pose proof (str_of_int_nonempty n) as Hne.
  destruct (Nat.ltb_spec (String.length (Py.str_of_int n)) 2) as [Hlt|Hge];
    [|done].
  destruct (Py.str_of_int n) as [|c s]; [done|]. simpl. lia.
Qed.

Lemma format_02d_length_small n :
  0 ≤ n < 100 → String.length (Py.format_02d n) = 2%nat.
Proof.
  intros Hn.
  assert (forallb (λ k, (String.length (Py.format_02d (Z.of_nat k)) =? 2)%nat)
            (seq 0 100) = true) as Hall by (vm_compute; reflexivity).
  rewrite forallb_forall in Hall.
  specialize (Hall (Z.to_nat n)). rewrite Z2Nat.id in Hall by lia.
  apply Nat.eqb_eq, Hall, in_seq. lia.
Qed.

(** [int(f"{n:02d}") == n] for a non-negative [n] that the format accepts *)
Lemma int_format_02d n :
  0 ≤ n < 10 ^ Py.int_max_str_digits → Py.int (Py.format_02d n) = Some n.
Proof.
  intros Hn. unfold Py.format_02d.
  destruct (Nat.ltb_spec (String.length (Py.str_of_int n)) 2) as [Hlt|Hge];
    [|apply int_str_of_int; lia].
  destruct n as [|p|p]; try lia; [done|].
  pose proof (DecimalPos.Unsigned.to_uint_nonnil p) as Hnn.
  rewrite str_of_int_pos in *. rewrite length_string_of_uint in Hlt.
  change ("0" +:+ NilEmpty.string_of_uint (Pos.to_uint p))
    with (NilEmpty.string_of_uint (Decimal.D0 (Pos.to_uint p))).
  rewrite int_string_of_uint; [simpl; by rewrite uint_value_to_uint|done|].
  clear Hn. change (Decimal.nb_digits (Decimal.D0 ?d)) with (S (Decimal.nb_digits d)).
  unfold Py.int_max_str_digits. lia.
Qed.

(** ** Timestamps written and read back *)

Lemma parse_timestamp_two_fields (f1 f2 : string) :
  no_chars (λ c, Py.contains c "[]") f1 → no_chars (λ c, Py.contains c "[]") f2 →
  Py.contains ":" f1 = false → Py.contains ":" f2 = false →
  parse_timestamp ("[" +:+ f1 +:+ ":" +:+ f2 +:+ "]") =
    match Py.int f1, Py.int f2 with
    | Some mm, Some ss => Some (mm * 60 + ss)
    | _, _ => None
    end.
Proof.
  intros Hb1 Hb2 Hc1 Hc2. unfold parse_timestamp, Py.strip_chars.
  replace ("[" +:+ f1 +:+ ":" +:+ f2 +:+ "]")
    with ("[" +:+ (f1 +:+ ":" +:+ f2) +:+ "]")
    by (by rewrite !app_assoc_s).
  rewrite strip_with_wrapped; [|by repeat constructor| |by repeat constructor].
  - change (":" +:+ f2) with (String ":"%char f2).
    by rewrite split_on_app, !split_on_none by done.
  - apply no_chars_app. split; [done|].
    apply no_chars_app. split; [by repeat constructor|done].
Qed.

Lemma parse_timestamp_fields (f1 f2 : string) (mm ss : Z) :
  no_chars (λ c, Py.contains c "[]") f1 → no_chars (λ c, Py.contains c "[]") f2 →
  Py.contains ":" f1 = false → Py.contains ":" f2 = false →
  Py.int f1 = Some mm → Py.int f2 = Some ss →
  parse_timestamp ("[" +:+ f1 +:+ ":" +:+ f2 +:+ "]") = Some (mm * 60 + ss).
Proof.
  intros Hb1 Hb2 Hc1 Hc2 H1 H2.
  by rewrite parse_timestamp_two_fields, H1, H2.
Qed.

(** X1. A token written as [f"[{mm:02d}:{ss:02d}]"] (or with the two numbers
    unpadded) from non-negative numbers of at most 4300 digits, the size up
    to which Python writes and reads an int, is read back by
    [parse_timestamp] as [mm * 60 + ss]. *)
Theorem parse_timestamp_reads_formatted (mm ss : Z) :
  0 ≤ mm < 10 ^ Py.int_max_str_digits → 0 ≤ ss < 10 ^ Py.int_max_str_digits →
  parse_timestamp ("[" +:+ Py.format_02d mm +:+ ":" +:+ Py.format_02d ss +:+ "]")
    = Some (mm * 60 + ss) ∧
  parse_timestamp ("[" +:+ Py.str_of_int mm +:+ ":" +:+ Py.str_of_int ss +:+ "]")
    = Some (mm * 60 + ss).
Proof.
  intros Hm Hs. split.
  - apply parse_timestamp_fields; try (by apply int_format_02d);
      try (apply digits_no_chars; [done|apply format_02d_digits; lia]);
      apply digits_contains_false; try done; apply format_02d_digits; lia.
  - apply parse_timestamp_fields; try (apply int_str_of_int; lia);
      try (apply digits_no_chars; [done|apply str_of_int_digits; lia]);
      apply digits_contains_false; try done; apply str_of_int_digits; lia.
Qed.

Lemma parse_timestamp_reads_formatted_witness :
  parse_timestamp ("[" +:+ Py.format_02d 7 +:+ ":" +:+ Py.format_02d 5 +:+ "]")
    = Some (7 * 60 + 5) ∧
  parse_timestamp ("[" +:+ Py.str_of_int 7 +:+ ":" +:+ Py.str_of_int 5 +:+ "]")
    = Some (7 * 60 + 5).
Proof.
  apply (parse_timestamp_reads_formatted 7 5); split; vm_compute; congruence.
Defined.

(** X2. For a non-negative number of seconds below [3600 * 10 ^ 4300], so
    that the hour field has at most the 4300 digits Python writes,
    [format_srt_timestamp] writes three fields of decimal digits separated
    by colons and followed by ",000"; the minute and second fields have two
    characters and the hour field at least two; read back with [int] they
    are below 60 (minutes and seconds) and recombine to the number of
    seconds.  Below 100 hours the whole stamp has 12 characters. *)
Theorem format_srt_timestamp_fields (seconds : Z) :
  0 ≤ seconds < 3600 * 10 ^ Py.int_max_str_digits →
  ∃ hh mm ss h m c,
    format_srt_timestamp seconds = hh +:+ ":" +:+ mm +:+ ":" +:+ ss +:+ ",000" ∧
    Py.int hh = Some h ∧ Py.int mm = Some m ∧ Py.int ss = Some c ∧
    0 ≤ h ∧ 0 ≤ m < 60 ∧ 0 ≤ c < 60 ∧ h * 3600 + m * 60 + c = seconds ∧
    (2 ≤ String.length hh)%nat ∧ String.length mm = 2%nat ∧
    String.length ss = 2%nat ∧
    (seconds < 360000 →
     String.length (format_srt_timestamp seconds) = 12%nat).
Proof.
  intros Hs. unfold format_srt_timestamp.
  pose proof (Z.div_mod seconds 3600 ltac:(lia)) as H1.
  pose proof (Z.mod_pos_bound seconds 3600 ltac:(lia)) as H2.
  pose proof (Z.div_mod (seconds mod 3600) 60 ltac:(lia)) as H3.
  pose proof (Z.mod_pos_bound (seconds mod 3600) 60 ltac:(lia)) as H4.
  assert (seconds mod 60 = (seconds mod 3600) mod 60) as H5.
  { rewrite <- (Z.mod_mod_divide seconds 3600 60); [done|].
    exists 60. lia. }
  assert (0 ≤ seconds / 3600) as H6 by (apply Z.div_pos; lia).
  assert (0 ≤ seconds mod 3600 / 60 < 60) as H7.
  { split; [apply Z.div_pos; lia|apply Z.div_lt_upper_bound; lia]. }
  pose proof (Z.mod_pos_bound seconds 60 ltac:(lia)) as H8.
  assert (60 < 10 ^ Py.int_max_str_digits) as H9 by (by vm_compute).
  assert (seconds / 3600 < 10 ^ Py.int_max_str_digits) as H10.
  { apply Z.div_lt_upper_bound; lia. }
  exists (Py.format_02d (seconds / 3600)),
    (Py.format_02d (seconds mod 3600 / 60)), (Py.format_02d (seconds mod 60)),
    (seconds / 3600), (seconds mod 3600 / 60), (seconds mod 60).
  split; [done|].
  rewrite !int_format_02d by lia.
  rewrite !(format_02d_length_small (seconds mod 3600 / 60)),
    !(format_02d_length_small (seconds mod 60)) by lia.
  repeat split; try lia; try apply format_02d_length.
  intros Hlt. rewrite !length_app_s.
  rewrite (format_02d_length_small (seconds / 3600))
    by (split; [done|apply Z.div_lt_upper_bound; lia]).
  by rewrite (format_02d_length_small (seconds mod 3600 / 60)),
    (format_02d_length_small (seconds mod 60)) by lia.
Qed.

Lemma format_srt_timestamp_fields_witness :
  ∃ hh mm ss h m c,
    format_srt_timestamp 3725 = hh +:+ ":" +:+ mm +:+ ":" +:+ ss +:+ ",000" ∧
    Py.int hh = Some h ∧ Py.int mm = Some m ∧ Py.int ss = Some c ∧
    0 ≤ h ∧ 0 ≤ m < 60 ∧ 0 ≤ c < 60 ∧ h * 3600 + m * 60 + c = 3725 ∧
    (2 ≤ String.length hh)%nat ∧ String.length mm = 2%nat ∧
    String.length ss = 2%nat ∧
    (3725 < 360000 → String.length (format_srt_timestamp 3725) = 12%nat).
Proof.
  apply (format_srt_timestamp_fields 3725); split; vm_compute; congruence.
Defined.

(** ** The numbers a pass writes

    [str] and the [02d] format raise ValueError on an int of more than 4300
    digits, and [str_of_int] does not.  The lemmas below show that the loop
    of [format_srt] never reaches that size: a start time read by
    [parse_timestamp] is below [61 * 10 ^ 4300], since [int] refuses longer
    fields, every accepted line moves the previous end by at most 4 beyond
    that, and the counter grows by one a line. *)

Lemma digit_value_range c d : Py.digit_value c = Some d → 0 ≤ d ≤ 9.
Proof.
  unfold Py.digit_value.
  destruct (_ && _) eqn:Hc; [|done]. intros [= <-].
  apply andb_prop in Hc as [H1%N.leb_le H2%N.leb_le]. lia.
Qed.

Lemma count_digits_nonneg s : 0 ≤ Py.count_digits s.
Proof. induction s as [|c s IH]; simpl; [done|]. destruct (Py.digit_value c); lia. Qed.

(** a literal of [k] digits read after [acc] is below [(acc + 1) * 10 ^ k] *)
Lemma int_digits_upper s acc b v :
  0 ≤ acc → Py.int_digits s acc b = Some v →
  v < (acc + 1) * 10 ^ Py.count_digits s.
Proof.
  revert acc b. induction s as [|c s IH]; intros acc b Hacc; simpl.
  - destruct b; [|done]. intros [= <-]. lia.
  - pose proof (count_digits_nonneg s) as Hc.
    destruct (Py.digit_value c) as [d|] eqn:Hd.
    + apply digit_value_range in Hd. intros Hv.
      apply IH in Hv; [|lia].
      replace (1 + Py.count_digits s) with (Z.succ (Py.count_digits s)) by lia.
      rewrite Z.pow_succ_r by done.
      pose proof (Z.pow_pos_nonneg 10 (Py.count_digits s) ltac:(lia) Hc). nia.
    + destruct (_ && _); [|done]. intros Hv. by apply IH in Hv.
Qed.

Lemma int_literal_range s v :
  Py.int_literal s = Some v → 0 ≤ v < 10 ^ Py.int_max_str_digits.
Proof.
  intros Hv. split; [by apply int_literal_nonneg in Hv|].
  unfold Py.int_literal in Hv.
  destruct (Z.leb_spec (Py.count_digits s) Py.int_max_str_digits) as [Hle|];
    [|done].
  apply int_digits_upper in Hv; [|done].
  pose proof (count_digits_nonneg s) as Hc.
  pose proof (Z.pow_le_mono_r 10 _ _ ltac:(lia) Hle). lia.
Qed.

(** what [int] accepts is a number that [str] writes *)
Lemma int_range s v :
  Py.int s = Some v → Z.abs v < 10 ^ Py.int_max_str_digits.
Proof.
  unfold Py.int. intros Hv.
  assert (∃ s', Py.int_literal s' = Some v ∨
                Z.opp <$> Py.int_literal s' = Some v) as (s' & [H|H]).
  { destruct (Py.strip_with Py.int_space s) as [|c r]; [by eexists; left|].
    destruct c as [[] [] [] [] [] [] [] []]; eauto. }
  - apply int_literal_range in H. lia.
  - destruct (Py.int_literal s') as [w|] eqn:Hw; [|done].
    injection H as <-. apply int_literal_range in Hw. lia.
Qed.

Lemma parse_timestamp_range s t :
  parse_timestamp s = Some t → Z.abs t < 61 * 10 ^ Py.int_max_str_digits.
Proof.
  unfold parse_timestamp. intros Hp.
  destruct (Py.split_on ":" _) as [|f1 [|f2 [|f3 fs]]]; try done.
  destruct (Py.int f1) as [mm|] eqn:H1; [|done].
  destruct (Py.int f2) as [ss|] eqn:H2; [|done].
  injection Hp as <-. apply int_range in H1, H2. lia.
Qed.

Lemma pass_numbers_bound (lines : list string) :
  current_entry (run_lines lines) ≤ Z.of_nat (length lines) + 1 ∧
  last_end_time (run_lines lines)
    ≤ 61 * 10 ^ Py.int_max_str_digits + 4 * Z.of_nat (length lines) ∧
  ∀ e, e ∈ entries (run_lines lines) →
       index e < current_entry (run_lines lines) ∧
       end_seconds e ≤ last_end_time (run_lines lines).
Proof.
  induction lines as [|line lines IH] using rev_ind.
  - split; [done|]. split; [|by intros e ?%elem_of_nil].
    change (last_end_time (run_lines [])) with 0.
    pose proof (Z.pow_nonneg 10 Py.int_max_str_digits ltac:(lia)).
    simpl length. lia.
  - rewrite run_lines_snoc, length_app, Nat2Z.inj_add. simpl length.
    destruct IH as (Hc & Hl & He).
    destruct (process_line_cases (run_lines lines) line)
      as [->|(t & (_ & _ & Hp & _) & ->)].
    + split; [lia|]. split; [lia|done].
    + apply parse_timestamp_range in Hp. simpl.
      split; [lia|]. split; [lia|].
      intros e [Hin| ->%list_elem_of_singleton]%elem_of_app.
      * destruct (He e Hin). lia.
      * simpl. lia.
Qed.

(** On a text of fewer than [10 ^ 4300] lines every number that
    [format_srt] writes, the counter and the hour, minute and second fields
    of both stamps, is non-negative and below [10 ^ 4300]: neither
    [f"{current_entry}"] nor [format_srt_timestamp] raises. *)
Lemma pass_writes_within_limit (lines : list string) (e : SubtitleEntry) :
  Z.of_nat (length lines) < 10 ^ Py.int_max_str_digits →
  e ∈ entries (run_lines lines) →
  0 ≤ index e < 10 ^ Py.int_max_str_digits ∧
  0 ≤ start_seconds e < 3600 * 10 ^ Py.int_max_str_digits ∧
  0 ≤ end_seconds e < 3600 * 10 ^ Py.int_max_str_digits.
Proof.
  intros Hn Hin.
  destruct (pass_numbers_bound lines) as (Hc & Hl & He).
  destruct (He e Hin) as [Hi Hend].
  apply list_elem_of_lookup in Hin as [i Hi'].
  destruct (wf_entry _ (wf_run_lines lines) _ _ Hi') as (Hidx & Hd & Hs & _).
  lia.
Qed.

(** ** Literals beyond the limit *)

Lemma count_digits_digits s :
  Forall is_digit (Py.to_list s) →
  Py.count_digits s = Z.of_nat (String.length s).
Proof.
  induction s as [|c s IH]; [done|]. intros [Hc Hs]%Forall_cons.
  rewrite count_digits_digit by done. cbn [String.length].
  rewrite IH by done. lia.
Qed.

Lemma int_of_digits s :
  Forall is_digit (Py.to_list s) → Py.int s = Py.int_literal s.
Proof.
  intros Hs. unfold Py.int.
  rewrite strip_with_none by (by apply digits_no_chars).
  destruct s as [|c r]; [done|].
  apply Forall_cons in Hs as [Hc%is_digit_cases _].
  simpl in Hc. by repeat destruct Hc as [<-|Hc].
Qed.

(** [int] refuses a string of more than 4300 digits, leading zeros
    counted *)
Lemma int_refuses_long s :
  Forall is_digit (Py.to_list s) →
  Py.int_max_str_digits < Z.of_nat (String.length s) → Py.int s = None.
Proof.
  intros Hs Hn. rewrite int_of_digits by done. unfold Py.int_literal.
  rewrite count_digits_digits by done.
  destruct (Z.leb_spec (Z.of_nat (String.length s)) Py.int_max_str_digits);
    [lia|done].
Qed.

(** and [parse_timestamp] refuses a token whose minutes are such a string *)
Lemma parse_timestamp_refuses_long f :
  Forall is_digit (Py.to_list f) →
  Py.int_max_str_digits < Z.of_nat (String.length f) →
  parse_timestamp ("[" +:+ f +:+ ":00]") = None.
Proof.
  intros Hf Hn.
  change (":00]") with (":" +:+ "00" +:+ "]").
  rewrite parse_timestamp_two_fields.
  - by rewrite int_refuses_long.
  - by apply digits_no_chars.
  - by repeat constructor.
  - by apply digits_contains_false.
  - done.
Qed.

Lemma length_of_list (l : list ascii) : String.length (Py.of_list l) = length l.
Proof. induction l; simpl; by rewrite ?IHl. Qed.

Example long_minutes_refused :
  Py.int (Py.of_list (repeat "1"%char 4301)) = None ∧
  Py.int (Py.of_list (repeat "0"%char 4301)) = None ∧
  parse_timestamp ("[" +:+ Py.of_list (repeat "1"%char 4301) +:+ ":00]") = None.
Proof.
  assert (∀ c, is_digit c →
            Forall is_digit (Py.to_list (Py.of_list (repeat c 4301)))) as Hd.
  { intros c Hc. rewrite to_of_list. apply Forall_forall.
    by intros x ->%list_elem_of_In%repeat_spec. }
  assert (∀ c, Py.int_max_str_digits
               < Z.of_nat (String.length (Py.of_list (repeat c 4301)))) as Hl.
  { intros c. rewrite length_of_list, repeat_length. vm_compute. reflexivity. }
  split; [|split].
  - apply int_refuses_long; [apply Hd; by eexists|apply Hl].
  - apply int_refuses_long; [apply Hd; by eexists|apply Hl].
  - apply parse_timestamp_refuses_long; [apply Hd; by eexists|apply Hl].
Qed.

(** ** Stripping twice *)

Section Strip.

Implicit Types (s : string) (c : ascii) (p : ascii → bool).

Lemma dropwhile_head p s :
  Py.dropwhile p s = "" ∨ ∃ c r, Py.dropwhile p s = String c r ∧ p c = false.
Proof.
  induction s as [|c s IH]; simpl; [by left|].
  destruct (p c) eqn:Hc; [done|]. right. by exists c, s.
Qed.

Lemma dropwhile_suffix p s :
  ∃ pre, Py.to_list s = pre ++ Py.to_list (Py.dropwhile p s) ∧
         Forall (λ c, p c = true) pre.
Proof.
  induction s as [|c s (pre & Heq & Hpre)]; simpl; [by exists []|].
  destruct (p c) eqn:Hc.
  - exists (c :: pre). split; [by rewrite Heq|by constructor].
  - by exists [].
Qed.

Lemma last_rev_head (l : list ascii) : last (List.rev l) = head l.
Proof. destruct l as [|c l]; [done|]. simpl. by rewrite last_snoc. Qed.

Lemma rev_cons_last (l : list ascii) c :
  last l = Some c → ∃ l', List.rev l = c :: l'.
Proof.
  intros (l' & ->)%last_Some. exists (List.rev l').
  by rewrite rev_app_distr.
Qed.

(** a string that neither starts nor ends with a stripped character is left
    as it is *)
Lemma strip_with_fixed p c r c' :
  p c = false → last (Py.to_list (String c r)) = Some c' → p c' = false →
  Py.strip_with p (String c r) = String c r.
Proof.
  intros Hc Hl Hc'. unfold Py.strip_with. simpl Py.dropwhile at 2. rewrite Hc.
  destruct (rev_cons_last _ _ Hl) as (l' & Hrev).
  assert (Py.rev (String c r) = String c' (Py.of_list l')) as Hr.
  { unfold Py.rev. by rewrite Hrev. }
  rewrite Hr. simpl Py.dropwhile. rewrite Hc', <- Hr. apply rev_rev.
Qed.

Lemma strip_with_shape p s :
  Py.strip_with p s = "" ∨
  ∃ c r c', Py.strip_with p s = String c r ∧ p c = false ∧
            last (Py.to_list (String c r)) = Some c' ∧ p c' = false.
Proof.
  unfold Py.strip_with.
  destruct (dropwhile_head p s) as [->|(c & r & -> & Hc)]; [by left|].
  set (s1 := String c r).
  destruct (dropwhile_suffix p (Py.rev s1)) as (pre & Heq & Hpre).
  assert (Py.to_list (Py.rev s1) = List.rev (Py.to_list r) ++ [c]) as Hrev.
  { unfold Py.rev. by rewrite to_of_list. }
  destruct (dropwhile_head p (Py.rev s1)) as [Hd|(c2 & r2 & Hd & Hc2)].
  - exfalso. rewrite Hd in Heq. simpl in Heq. rewrite app_nil_r in Heq.
    rewrite Heq in Hrev. rewrite Forall_forall in Hpre.
    assert (p c = true) as Hc'; [|congruence].
    apply Hpre. rewrite Hrev. apply elem_of_app. right. by apply elem_of_cons; left.
  - right. rewrite Hd. rewrite Hd in Heq.
    assert (last (Py.to_list (String c2 r2)) = Some c) as Hlast.
    { assert (last (pre ++ Py.to_list (String c2 r2)) = Some c) as H.
      { by rewrite <- Heq, Hrev, last_snoc. }
      rewrite last_app in H.
      destruct (last (Py.to_list (String c2 r2))) eqn:E; [done|].
      by apply last_None in E. }
    destruct (rev_cons_last _ _ Hlast) as (l' & Hl').
    exists c, (Py.of_list l'), c2.
    assert (Py.rev (String c2 r2) = String c (Py.of_list l')) as Hr.
    { unfold Py.rev. by rewrite Hl'. }
    rewrite Hr. repeat split; try done.
    rewrite <- Hr. unfold Py.rev. rewrite to_of_list, last_rev_head. done.
Qed.

Lemma strip_with_idem p s :
  Py.strip_with p (Py.strip_with p s) = Py.strip_with p s.
Proof.
  destruct (strip_with_shape p s) as [->|(c & r & c' & -> & Hc & Hl & Hc')];
    [done|].
  by apply (strip_with_fixed p c r c').
Qed.

Lemma drop_sub (n : nat) s c : c ∈ Py.to_list (Py.drop n s) → c ∈ Py.to_list s.
Proof.
  revert s. induction n as [|n IH]; intros [|d s]; simpl; try done.
  intros H%IH. by apply elem_of_cons; right.
Qed.

End Strip.

(** ** More on the entries of a pass *)

Lemma entry_origin_full (lines : list string) (e : SubtitleEntry) :
  e ∈ entries (run_lines lines) →
  ∃ (k : nat) line t, lines !! k = Some line ∧
    accepted (run_lines (take k lines)) line t ∧
    e = mkEntry (current_entry (run_lines (take k lines)))
          (Z.max t (last_end_time (run_lines (take k lines)) + 1))
          (Z.max t (last_end_time (run_lines (take k lines)) + 1) + 3)
          (line_text line).
Proof.
  induction lines as [|line lines IH] using rev_ind; [by intros ?%elem_of_nil|].
  rewrite run_lines_snoc.
  assert (∀ k l, lines !! k = Some l →
            (lines ++ [line]) !! k = Some l ∧
            take k (lines ++ [line]) = take k lines) as Hpre.
  { intros k l Hk. pose proof (lookup_lt_Some _ _ _ Hk) as Hlt.
    split; [by rewrite lookup_app_l|by rewrite take_app_le by lia]. }
  destruct (process_line_cases (run_lines lines) line)
    as [->|(t & Hacc & ->)].
  - intros (k & l & t & Hk & Hacc & He)%IH.
    destruct (Hpre k l Hk) as [Hk' Ht]. exists k, l, t. by rewrite Hk', Ht.
  - rewrite entries_accept. intros [Hin|Hin]%elem_of_app.
    + destruct (IH Hin) as (k & l & t' & Hk & Hacc' & He).
      destruct (Hpre k l Hk) as [Hk' Ht]. exists k, l, t'. by rewrite Hk', Ht.
    + apply list_elem_of_singleton in Hin as ->.
      exists (length lines), line, t.
      rewrite lookup_app_r by lia. rewrite Nat.sub_diag. simpl.
      rewrite take_app_le by lia. rewrite take_ge by lia. done.
Qed.

(** X3. Dense indexing: the entry at position [i] (from 0) of the output of
    [format_srt] carries the index [i + 1]. *)
Theorem entries_densely_indexed (timestamps_text : string) (i : nat)
    (e : SubtitleEntry) :
  entries (normalize timestamps_text) !! i = Some e → index e = Z.of_nat i + 1.
Proof.
  intros Hi.
  by destruct (wf_entry _ (wf_normalize timestamps_text) _ _ Hi) as (? & _).
Qed.

Lemma entries_densely_indexed_witness :
  index (mkEntry 2 14 17 "B") = Z.of_nat 1 + 1.
Proof.
  apply (entries_densely_indexed (Py.join newline ["[00:10] A"; "[00:11] B"]) 1).
  vm_compute. reflexivity.
Defined.

(** X4. Every entry comes from a line of the input: a line that is not
    skipped, whose bracketed token parses to some [t], and whose trimmed
    text is the text of the entry; the entry does not start before [t]. *)
Theorem entry_comes_from_a_line (timestamps_text : string) (e : SubtitleEntry) :
  e ∈ entries (normalize timestamps_text) →
  ∃ line t, line ∈ Py.split_on nl timestamps_text ∧
    skipped_line line = false ∧
    parse_timestamp (timestamp_part line) = Some t ∧
    text e = line_text line ∧ t ≤ start_seconds e.
Proof.
  intros (k & line & t & Hk & (Hs & _ & Hp & _) & ->)%entry_origin_full.
  exists line, t. simpl. repeat split; try done; [|lia].
  by eapply list_elem_of_lookup_2.
Qed.

Lemma entry_comes_from_a_line_witness :
  ∃ line t, line ∈ Py.split_on nl (Py.join newline ["[00:10] A"; "[00:11] B"]) ∧
    skipped_line line = false ∧
    parse_timestamp (timestamp_part line) = Some t ∧
    text (mkEntry 2 14 17 "B") = line_text line ∧
    t ≤ start_seconds (mkEntry 2 14 17 "B").
Proof.
  apply (entry_comes_from_a_line (Py.join newline ["[00:10] A"; "[00:11] B"])).
  vm_compute. apply list_elem_of_further, list_elem_of_here.
Defined.

Lemma line_text_sub (line : string) (c : ascii) :
  c ∈ Py.to_list (line_text line) → c ∈ Py.to_list line.
Proof.
  unfold line_text, Py.strip, Py.slice_from.
  intros H%strip_with_sub. by apply drop_sub in H.
Qed.

Lemma entry_text_facts (lines : list string) (e : SubtitleEntry) :
  e ∈ entries (run_lines lines) →
  text e ≠ "" ∧ Py.strip (text e) = text e ∧
  detect_repetition_pattern (text e) = false ∧
  ∃ line, line ∈ lines ∧ text e = line_text line.
Proof.
  intros (k & line & t & Hk & (_ & Hv & _ & _) & ->)%entry_origin_full. simpl.
  apply is_valid_text_true in Hv as (Hne & Hd & _ & _).
  repeat split; try done.
  - unfold line_text, Py.strip. apply strip_with_idem.
  - exists line. split; [by eapply list_elem_of_lookup_2|done].
Qed.

Lemma entry_text_no_newline (timestamps_text : string) (e : SubtitleEntry) :
  e ∈ entries (normalize timestamps_text) → Py.contains nl (text e) = false.
Proof.
  intros (_ & _ & _ & line & Hl & ->)%entry_text_facts.
  apply contains_false. intros Hin%line_text_sub. apply contains_spec in Hin.
  by rewrite (split_on_no_sep nl timestamps_text line) in Hin.
Qed.

(** X5. The text of every entry is not empty, has no white space at either
    end, holds no newline, and is not a repetition pattern. *)
Theorem entry_text_is_clean (timestamps_text : string) (e : SubtitleEntry) :
  e ∈ entries (normalize timestamps_text) →
  text e ≠ "" ∧ Py.strip (text e) = text e ∧
  Py.contains nl (text e) = false ∧
  detect_repetition_pattern (text e) = false.
Proof.
  intros He. pose proof (entry_text_no_newline _ _ He) as Hnl.
  apply entry_text_facts in He as (Hne & Hs & Hd & _). done.
Qed.

Lemma entry_text_is_clean_witness :
  text (mkEntry 1 2 5 "Hello there") ≠ "" ∧
  Py.strip (text (mkEntry 1 2 5 "Hello there")) = text (mkEntry 1 2 5 "Hello there") ∧
  Py.contains nl (text (mkEntry 1 2 5 "Hello there")) = false ∧
  detect_repetition_pattern (text (mkEntry 1 2 5 "Hello there")) = false.
Proof.
  apply (entry_text_is_clean "[00:02]   Hello there  ").
  vm_compute. apply list_elem_of_here.
Defined.

Lemma fold_skipped (lines : list string) (st : norm_state) :
  fold_left process_line (filter (λ l, negb (skipped_line l)) lines) st =
  fold_left process_line lines st.
Proof.
  revert st. induction lines as [|l lines IH]; intros st; [done|].
  destruct (skipped_line l) eqn:Hs.
  - rewrite filter_cons_False by (simpl; rewrite Hs; by intros []). rewrite IH. simpl.
    assert (process_line st l = st) as ->; [|done].
    unfold process_line. by rewrite Hs.
  - rewrite filter_cons_True by (simpl; by rewrite Hs). simpl. apply IH.
Qed.

(** X6. Blank lines and lines without an opening bracket have no effect:
    taking them out of the input leaves the pass, and so the subtitles, the
    same. *)
Theorem skipped_lines_do_not_matter (lines : list string) :
  run_lines (filter (λ l, negb (skipped_line l)) lines) = run_lines lines.
Proof. apply fold_skipped. Qed.

Lemma fold_entries_bound (lines : list string) (st : norm_state) :
  (length (entries (fold_left process_line lines st)) ≤
   length (entries st) + length (filter (λ l, negb (skipped_line l)) lines))%nat.
Proof.
  revert st. induction lines as [|l lines IH]; intros st; simpl; [lia|].
  specialize (IH (process_line st l)).
  destruct (process_line_cases st l) as [Heq|(t & (Hs & _) & Heq)].
  - rewrite Heq in *. destruct (skipped_line l) eqn:Hs.
    + by rewrite filter_cons_False by (simpl; rewrite Hs; by intros []).
    + rewrite filter_cons_True by (simpl; by rewrite Hs). simpl. lia.
  - rewrite filter_cons_True by (simpl; by rewrite Hs). rewrite Heq in *.
    rewrite entries_accept, length_app in IH. simpl in *. lia.
Qed.

(** X7. A pass makes at most one entry per line that is neither blank nor
    without an opening bracket. *)
Theorem entries_at_most_lines (timestamps_text : string) :
  (length (entries (normalize timestamps_text)) ≤
   length (filter (λ l, negb (skipped_line l)) (Py.split_on nl timestamps_text)))%nat.
Proof. apply (fold_entries_bound _ init_state). Qed.

Lemma fold_all_skipped (lines : list string) (st : norm_state) :
  Forall (λ l, skipped_line l = true) lines →
  fold_left process_line lines st = st.
Proof.
  induction 1 as [|l lines Hl _ IH]; [done|]. simpl.
  assert (process_line st l = st) as ->; [|done].
  unfold process_line. by rewrite Hl.
Qed.

(** X8. A text without any opening bracket gives no entry and an empty
    subtitle file. *)
Theorem no_bracket_no_subtitles (timestamps_text : string) :
  Py.contains "[" timestamps_text = false →
  entries (normalize timestamps_text) = [] ∧ format_srt timestamps_text = "".
Proof.
  intros Hc.
  assert (normalize timestamps_text = init_state) as Hn.
  { apply fold_all_skipped, Forall_forall. intros l Hl. unfold skipped_line.
    assert (Py.contains "[" l = false) as ->; [|apply orb_true_r].
    apply contains_false. intros Hin. apply contains_false in Hc.
    apply Hc. by eapply split_on_sub. }
  unfold format_srt. by rewrite Hn.
Qed.

Lemma no_bracket_no_subtitles_witness :
  entries (normalize "no timestamps at all") = [] ∧
  format_srt "no timestamps at all" = "".
Proof. apply (no_bracket_no_subtitles "no timestamps at all"). vm_compute. reflexivity. Defined.

(** ** The line parser *)

Section LineParser.

Implicit Types (s line : string) (c : ascii).

Lemma find_ge c s : -1 ≤ Py.find c s.
Proof.
  induction s as [|d s IH]; simpl; [lia|].
  destruct (Py.ascii_eqb c d); [lia|]. destruct (Z.ltb_spec (Py.find c s) 0); lia.
Qed.

Lemma find_absent c s : Py.contains c s = false → Py.find c s = -1.
Proof.
  induction s as [|d s IH]; simpl; [done|].
  intros [-> H]%orb_false_iff. by rewrite IH.
Qed.

Lemma find_present c s : Py.contains c s = true → 0 ≤ Py.find c s.
Proof.
  induction s as [|d s IH]; simpl; [done|].
  destruct (Py.ascii_eqb c d); [lia|]. simpl. intros H%IH.
  destruct (Z.ltb_spec (Py.find c s) 0); lia.
Qed.

Lemma find_first c s1 s2 :
  Py.contains c s1 = false →
  Py.find c (s1 +:+ String c s2) = Py.len s1.
Proof.
  unfold Py.len. induction s1 as [|d s1 IH].
  - intros _. change ("" +:+ String c s2) with (String c s2). simpl.
    by rewrite (proj2 (ascii_eqb_true c c)).
  - change (String d s1 +:+ String c s2) with (String d (s1 +:+ String c s2)).
    simpl. intros [-> H]%orb_false_iff. rewrite IH by done.
    destruct (Z.ltb_spec (Z.of_nat (String.length s1)) 0); lia.
Qed.

Lemma len_app s1 s2 : Py.len (s1 +:+ s2) = Py.len s1 + Py.len s2.
Proof. unfold Py.len. rewrite length_app_s. lia. Qed.

Lemma len_nonneg s : 0 ≤ Py.len s.
Proof. unfold Py.len. lia. Qed.

Lemma drop_app_length s1 s2 : Py.drop (String.length s1) (s1 +:+ s2) = s2.
Proof. induction s1 as [|c s1 IH]; [by destruct s2|]. apply IH. Qed.

Lemma take_app_length s1 s2 : Py.take (String.length s1) (s1 +:+ s2) = s1.
Proof.
  induction s1 as [|c s1 IH]; [by destruct s2|].
  change (String c s1 +:+ s2) with (String c (s1 +:+ s2)). simpl. by rewrite IH.
Qed.

Lemma take_zero s : Py.take 0 s = "".
Proof. by destruct s. Qed.

Lemma slice_bound_inside s (i : Z) :
  0 ≤ i ≤ Py.len s → Py.slice_bound s i = i.
Proof.
  intros Hi. unfold Py.slice_bound.
  destruct (Z.ltb_spec i 0); lia.
Qed.

(** [s[lo:hi]] is empty when [0 <= hi <= lo] *)
Lemma slice_empty s (lo hi : Z) : 0 ≤ hi ≤ lo → Py.slice s lo hi = "".
Proof.
  intros H. unfold Py.slice, Py.slice_bound.
  destruct (Z.ltb_spec lo 0), (Z.ltb_spec hi 0); try lia.
  replace (Z.to_nat (Z.min hi (Py.len s) - Z.min lo (Py.len s))) with 0%nat by lia.
  apply take_zero.
Qed.

End LineParser.

(** X9. A line whose first closing bracket comes before its first opening
    bracket, or that has an opening bracket and no closing one, is dropped
    in every state, whatever else it holds. *)
Theorem misplaced_bracket_dropped (st : norm_state) (line : string) :
  Py.find "]" line < Py.find "[" line →
  timestamp_part line = "" ∧ process_line st line = st.
Proof.
  intros Hlt. pose proof (find_ge "]" line) as Hge.
  assert (timestamp_part line = "") as Ht.
  { unfold timestamp_part. apply slice_empty. lia. }
  split; [done|]. unfold process_line. rewrite Ht.
  destruct (skipped_line line); [done|]. by destruct (negb _).
Qed.

Lemma misplaced_bracket_dropped_witness :
  timestamp_part "x] [00:05] hello" = "" ∧
  process_line init_state "x] [00:05] hello" = init_state.
Proof.
  apply (misplaced_bracket_dropped init_state "x] [00:05] hello").
  vm_compute. reflexivity.
Defined.

(** X10. On a line made of a prefix without brackets, a bracketed token
    without a closing bracket inside, and a rest, the parser takes the token
    with its brackets as the timestamp and the trimmed rest as the text. *)
Theorem line_parser_takes_first_token (pre token rest : string) :
  Py.contains "[" pre = false → Py.contains "]" pre = false →
  Py.contains "]" token = false →
  timestamp_part (pre +:+ "[" +:+ token +:+ "]" +:+ rest) = "[" +:+ token +:+ "]" ∧
  line_text (pre +:+ "[" +:+ token +:+ "]" +:+ rest) = Py.strip rest.
Proof.
  intros Ho Hc Ht.
  set (line := pre +:+ "[" +:+ token +:+ "]" +:+ rest).
  assert (Py.find "[" line = Py.len pre) as Hfo.
  { unfold line. change ("[" +:+ ?s) with (String "["%char s).
    by apply find_first. }
  assert (line = (pre +:+ "[" +:+ token) +:+ String "]"%char rest) as Hline.
  { unfold line. by rewrite !app_assoc_s. }
  assert (Py.find "]" line = Py.len pre + 1 + Py.len token) as Hfc.
  { rewrite Hline, find_first.
    - rewrite !len_app. unfold Py.len. simpl. lia.
    - rewrite !contains_app, Hc, Ht. done. }
  assert (Py.len line = Py.len pre + 1 + Py.len token + 1 + Py.len rest) as Hlen.
  { rewrite Hline, !len_app. unfold Py.len. simpl. lia. }
  pose proof (len_nonneg pre). pose proof (len_nonneg token).
  pose proof (len_nonneg rest).
  split.
  - unfold timestamp_part, Py.slice. rewrite Hfo, Hfc.
    rewrite !slice_bound_inside by lia.
    replace (Z.to_nat (Py.len pre)) with (String.length pre)
      by (unfold Py.len; lia).
    unfold line at 1. rewrite drop_app_length.
    replace (Z.to_nat (Py.len pre + 1 + Py.len token + 1 - Py.len pre))
      with (String.length ("[" +:+ token +:+ "]"))
      by (rewrite !length_app_s; unfold Py.len; simpl; lia).
    replace ("[" +:+ token +:+ "]" +:+ rest)
      with (("[" +:+ token +:+ "]") +:+ rest) by (by rewrite !app_assoc_s).
    apply take_app_length.
  - unfold line_text, Py.slice_from. rewrite Hfc.
    rewrite slice_bound_inside by lia. f_equal.
    replace (Z.to_nat (Py.len pre + 1 + Py.len token + 1))
      with (String.length (pre +:+ "[" +:+ token +:+ "]"))
      by (rewrite !length_app_s; unfold Py.len; simpl; lia).
    replace line with ((pre +:+ "[" +:+ token +:+ "]") +:+ rest)
      by (unfold line; by rewrite !app_assoc_s).
    apply drop_app_length.
Qed.

Lemma line_parser_takes_first_token_witness :
  timestamp_part ("  " +:+ "[" +:+ "00:05" +:+ "]" +:+ " hello [x] ")
    = "[" +:+ "00:05" +:+ "]" ∧
  line_text ("  " +:+ "[" +:+ "00:05" +:+ "]" +:+ " hello [x] ")
    = Py.strip " hello [x] ".
Proof.
  apply (line_parser_takes_first_token "  " "00:05" " hello [x] ");
    vm_compute; reflexivity.
Defined.

(** ** The timeline as a whole *)

(** X11. Each entry takes four seconds of the timeline at least: the entry at
    position [i] (from 0) starts at second [4 * i + 1] or later. *)
Theorem entries_take_four_seconds (timestamps_text : string) (i : nat)
    (e : SubtitleEntry) :
  entries (normalize timestamps_text) !! i = Some e →
  4 * Z.of_nat i + 1 ≤ start_seconds e.
Proof.
  pose proof (wf_normalize timestamps_text) as Hwf.
  revert e. induction i as [|i IH]; intros e Hi.
  - destruct (wf_entry _ Hwf _ _ Hi) as (_ & _ & Hs & _). lia.
  - destruct (lookup_lt_is_Some_2 (entries (normalize timestamps_text)) i)
      as [e0 H0]; [apply lookup_lt_Some in Hi; lia|].
    pose proof (IH _ H0) as Hprev.
    pose proof (wf_gaps _ Hwf _ _ _ H0 Hi) as Hgap.
    destruct (wf_entry _ Hwf _ _ H0) as (_ & Hd & _). lia.
Qed.

Lemma entries_take_four_seconds_witness :
  4 * Z.of_nat 1 + 1 ≤ start_seconds (mkEntry 2 5 8 "B").
Proof.
  apply (entries_take_four_seconds (Py.join newline ["[00:00] A"; "[00:00] B"]) 1).
  vm_compute. reflexivity.
Defined.

(** X12. Entries are only ever appended: reading more lines leaves the entries
    made so far in place and unchanged. *)
Theorem entries_are_append_only (lines more : list string) :
  entries (run_lines lines) `prefix_of` entries (run_lines (lines ++ more)).
Proof. rewrite run_lines_app. apply entries_fold. Qed.

(** X13. One pass runs over all chunks: the pass over the joined transcripts
    of two runs of chunks is the pass over the lines of the second run
    started in the state the first run ends in, so duplicates and the clamp
    carry over chunk boundaries. *)
Theorem pass_continues_across_chunks (first second : list string) :
  normalize (Py.join newline (first ++ second)) =
  fold_left process_line (concat (Py.split_on nl <$> second))
    (normalize (Py.join newline first)).
Proof. by rewrite !normalize_join, fmap_app, concat_app, run_lines_app. Qed.

(** ** The rendered blocks *)

Lemma format_srt_timestamp_no_newline (seconds : Z) :
  0 ≤ seconds → Py.contains nl (format_srt_timestamp seconds) = false.
Proof.
  intros Hs. unfold format_srt_timestamp. rewrite !contains_app.
  assert (0 ≤ seconds / 3600) by (apply Z.div_pos; lia).
  assert (0 ≤ seconds mod 3600 / 60).
  { apply Z.div_pos; [|lia]. apply Z.mod_pos_bound. lia. }
  assert (0 ≤ seconds mod 60) by (apply Z.mod_pos_bound; lia).
  rewrite !(digits_contains_false nl (Py.format_02d _))
    by (done || by apply format_02d_digits).
  done.
Qed.

(** X14. Every block of the subtitle file is three lines and an empty one: the
    index, the two stamps around " --> ", and the text of the entry. *)
Theorem rendered_block_lines (timestamps_text : string) (e : SubtitleEntry) :
  e ∈ entries (normalize timestamps_text) →
  Py.split_on nl (render_entry e) =
    [Py.str_of_int (index e);
     format_srt_timestamp (start_seconds e) +:+ " --> "
       +:+ format_srt_timestamp (end_seconds e);
     text e; ""].
Proof.
  intros He. pose proof (entry_text_no_newline _ _ He) as Hnl.
  apply list_elem_of_lookup in He as (i & Hi).
  destruct (wf_entry _ (wf_normalize timestamps_text) _ _ Hi)
    as (Hidx & Hend & Hstart & _).
  unfold render_entry, newline.
  replace (Py.str_of_int (index e) +:+ String nl "" +:+
           format_srt_timestamp (start_seconds e) +:+ " --> " +:+
           format_srt_timestamp (end_seconds e) +:+ String nl "" +:+
           text e +:+ String nl "")
    with (Py.str_of_int (index e) +:+ String nl
            ((format_srt_timestamp (start_seconds e) +:+ " --> " +:+
              format_srt_timestamp (end_seconds e)) +:+ String nl
               (text e +:+ String nl "")))
    by (by rewrite !app_assoc_s).
  rewrite !split_on_app. rewrite !split_on_none; try done.
  - rewrite !contains_app, !format_srt_timestamp_no_newline by lia. done.
  - apply digits_contains_false; [done|]. apply str_of_int_digits. lia.
Qed.

Lemma rendered_block_lines_witness :
  Py.split_on nl (render_entry (mkEntry 1 2 5 "Hello there")) =
    [Py.str_of_int (index (mkEntry 1 2 5 "Hello there"));
     format_srt_timestamp (start_seconds (mkEntry 1 2 5 "Hello there")) +:+ " --> "
       +:+ format_srt_timestamp (end_seconds (mkEntry 1 2 5 "Hello there"));
     text (mkEntry 1 2 5 "Hello there"); ""].
Proof.
  apply (rendered_block_lines "[00:02] Hello there").
  vm_compute. apply list_elem_of_here.
Defined.

(** ** More on the segments *)

Lemma app_inv_tail_s (s1 s2 t : string) : s1 +:+ t = s2 +:+ t → s1 = s2.
Proof.
  intros H. apply to_list_inj. apply (f_equal Py.to_list) in H.
  rewrite !to_list_app in H. by apply app_inv_tail in H.
Qed.

Lemma split_audio_lookup length_ms segment_duration segments (i : nat) seg :
  split_audio length_ms segment_duration = Some segments →
  segments !! i = Some seg →
  seg = make_segment length_ms segment_duration (Z.of_nat i).
Proof.
  unfold split_audio. destruct (num_segments _ _) as [n|]; [|done]. simpl.
  intros [= <-] Hi. by apply lookup_segments in Hi as [_ ->].
Qed.

(** X15. The segments of one split are stored under pairwise different
    paths, whatever the length and the segment size. *)
Theorem segment_paths_distinct (length_ms segment_duration : Z)
    (segments : list segment) (i j : nat) (a b : segment) :
  split_audio length_ms segment_duration = Some segments →
  segments !! i = Some a → segments !! j = Some b →
  i ≠ j → path a ≠ path b.
Proof.
  intros Hs Ha Hb Hij.
  rewrite (split_audio_lookup _ _ _ _ _ Hs Ha),
    (split_audio_lookup _ _ _ _ _ Hs Hb). simpl.
  intros H%(inj (String.app _)).
  apply app_inv_tail_s, str_of_int_inj in H. lia.
Qed.

Lemma segment_paths_distinct_witness :
  path (make_segment 650000 300000 0) ≠ path (make_segment 650000 300000 2).
Proof.
  apply (segment_paths_distinct 650000 300000
           (make_segment 650000 300000 <$> [0; 1; 2]) 0 2);
    try (vm_compute; reflexivity).
  lia.
Defined.

(** X16. With the segment size of five minutes that [transcribe] uses, the
    segment at position [i] starts at second [300 * i], and its prompt asks
    for timestamps starting from minute [5 * i]. *)
Theorem default_segments_start_on_five_minutes (length_ms : Z)
    (segments : list segment) (i : nat) (seg : segment) :
  split_audio length_ms 300000 = Some segments →
  segments !! i = Some seg →
  start_time seg = 300 * Z.of_nat i ∧
  get_segment_prompt (start_time seg) =
    "Generate a transcript for this audio segment. "
    +:+ "Use the format [MM:SS] for timestamps, starting from "
    +:+ "minute " +:+ Py.str_of_int (5 * Z.of_nat i)
    +:+ ". Add timestamps every 3-5 seconds. "
    +:+ "Format each line as: [MM:SS] Text content. "
    +:+ "Only transcribe actual speech - do not generate placeholder content. "
    +:+ "If there is silence or no clear speech, skip that section. "
    +:+ "Each transcribed line must contain meaningful content.".
Proof.
  intros Hs Hi. rewrite (split_audio_lookup _ _ _ _ _ Hs Hi). simpl.
  assert (Z.of_nat i * 300000 / 1000 = 300 * Z.of_nat i) as ->.
  { replace (Z.of_nat i * 300000) with (300 * Z.of_nat i * 1000) by lia.
    by rewrite Z.div_mul. }
  split; [done|]. unfold get_segment_prompt.
  replace (300 * Z.of_nat i / 60) with (5 * Z.of_nat i); [done|].
  replace (300 * Z.of_nat i) with (5 * Z.of_nat i * 60) by lia.
  by rewrite Z.div_mul.
Qed.

Lemma default_segments_start_on_five_minutes_witness :
  start_time (make_segment 650000 300000 2) = 300 * Z.of_nat 2 ∧
  get_segment_prompt (start_time (make_segment 650000 300000 2)) =
    "Generate a transcript for this audio segment. "
    +:+ "Use the format [MM:SS] for timestamps, starting from "
    +:+ "minute " +:+ Py.str_of_int (5 * Z.of_nat 2)
    +:+ ". Add timestamps every 3-5 seconds. "
    +:+ "Format each line as: [MM:SS] Text content. "
    +:+ "Only transcribe actual speech - do not generate placeholder content. "
    +:+ "If there is silence or no clear speech, skip that section. "
    +:+ "Each transcribed line must contain meaningful content.".
Proof.
  apply (default_segments_start_on_five_minutes 650000
           (make_segment 650000 300000 <$> [0; 1; 2]) 2);
    vm_compute; reflexivity.
Defined.

Lemma binary_round_aux_negative mx ex lx :
  match binary_round_aux 53 1024 true mx ex lx with
  | S754_finite s _ _ => s = true
  | _ => True
  end.
Proof.
  unfold binary_round_aux.
  destruct (shr_fexp 53 1024 mx ex lx) as [mrs' e'].
  destruct (shr_fexp 53 1024 _ e' loc_Exact) as [mrs'' e''].
  destruct (shr_m mrs''); try done. by destruct (_ <=? _).
Qed.

Lemma math_ceil_negative m e n :
  math_ceil (S754_finite true m e) = Some n → n ≤ 0.
Proof.
  simpl. intros [= <-]. destruct (Z.leb_spec 0 e).
  - assert (0 < 2 ^ e) by (apply Z.pow_pos_nonneg; lia). nia.
  - assert (0 < 2 ^ (- e)) by (apply Z.pow_pos_nonneg; lia).
    assert (0 ≤ Z.pos m / 2 ^ (- e)) by (apply Z.div_pos; lia).
    change (- Z.neg m) with (Z.pos m). lia.
Qed.

(** X17. A segment size that is not positive never gives a segment: with size
    0 the division raises, and with a negative size the count is zero or
    below, so the list is empty (or the division overflows). *)
Theorem nonpositive_segment_duration (length_ms segment_duration : Z) :
  0 ≤ length_ms → segment_duration ≤ 0 →
  (segment_duration = 0 → split_audio length_ms segment_duration = None) ∧
  (split_audio length_ms segment_duration = None ∨
   split_audio length_ms segment_duration = Some []).
Proof.
  intros Hl Hs.
  assert (segment_duration = 0 → split_audio length_ms segment_duration = None)
    as H0.
  { intros ->. unfold split_audio, num_segments, true_divide. done. }
  split; [done|].
  destruct (decide (segment_duration = 0)) as [Hz|Hnz]; [left; by apply H0|].
  assert (∀ n, num_segments length_ms segment_duration = Some n → n ≤ 0) as Hn.
  { unfold num_segments, true_divide.
    destruct (Z.eqb_spec segment_duration 0) as [?|_]; [done|].
    destruct segment_duration as [|b|b]; try lia.
    destruct length_ms as [|a|a]; try lia; simpl float_of_int.
    - simpl. by intros k [= <-].
    - unfold SFdiv.
      destruct (SFdiv_core_binary 53 1024 (Z.pos a) 0 (Z.pos b) 0)
        as [[mz ez] lz].
      pose proof (binary_round_aux_negative mz ez lz) as Hneg.
      simpl xorb.
      destruct (binary_round_aux 53 1024 true mz ez lz) as [s|s| |s m e];
        simpl; intros k Hk; try done.
      + by injection Hk as <-.
      + subst s. by apply math_ceil_negative in Hk. }
  unfold split_audio.
  destruct (num_segments length_ms segment_duration) as [n|]; [|by left].
  right. simpl. specialize (Hn n eq_refl). unfold range.
  by replace (Z.to_nat n) with 0%nat by lia.
Qed.

Lemma nonpositive_segment_duration_witness :
  (-300000 = 0 → split_audio 650000 (-300000) = None) ∧
  (split_audio 650000 (-300000) = None ∨ split_audio 650000 (-300000) = Some []).
Proof. apply (nonpositive_segment_duration 650000 (-300000)); lia. Defined.

(** ** More on the transcription job *)

(** X18. For every recording below 2^53 milliseconds and every behaviour of
    the service, [transcribe] completes: the split succeeds with
    [ceil (length_ms / 300000)] segments, and the result holds the responses
    kept, joined by newlines, and the subtitles made from that same text. *)
Theorem transcribe_completes (service : string → string → response)
    (length_ms : Z) :
  0 ≤ length_ms < 2 ^ 53 →
  ∃ segments,
    split_audio length_ms 300000 = Some segments ∧
    Z.of_nat (length segments) = ceil_div length_ms 300000 ∧
    transcribe service (Some length_ms) =
      JobDone (Py.join newline (transcribe_segments service segments))
        (format_srt (Py.join newline (transcribe_segments service segments))).
Proof.
  intros Hl. unfold transcribe, split_audio.
  rewrite (num_segments_exact length_ms 300000) by lia. simpl.
  eexists. split; [reflexivity|]. split; [|reflexivity].
  rewrite length_fmap, length_range, Z2Nat.id; [done|].
  pose proof (ceil_div_bounds length_ms 300000 ltac:(lia) ltac:(lia)). nia.
Qed.

Lemma transcribe_completes_witness :
  ∃ segments,
    split_audio 650000 300000 = Some segments ∧
    Z.of_nat (length segments) = ceil_div 650000 300000 ∧
    transcribe sample_service (Some 650000) =
      JobDone (Py.join newline (transcribe_segments sample_service segments))
        (format_srt (Py.join newline (transcribe_segments sample_service segments))).
Proof. apply (transcribe_completes sample_service 650000). lia. Defined.

Lemma transcribe_segments_all_fail (service : string → string → response)
    (segments : list segment) :
  Forall (chunk_fails service) segments →
  transcribe_segments service segments = [].
Proof.
  induction 1 as [|seg segments Hf _ IH]; [done|].
  by rewrite transcribe_segments_cons, transcribe_segment_fails, IH.
Qed.

(** X19. When every segment fails (and also when there is no segment at all),
    the job still completes, with an empty transcript and an empty subtitle
    file. *)
Theorem all_chunks_fail_empty_job (service : string → string → response)
    (length_ms : Z) (segments : list segment) :
  split_audio length_ms 300000 = Some segments →
  (∀ seg, seg ∈ segments → chunk_fails service seg) →
  transcribe service (Some length_ms) = JobDone "" "".
Proof.
  intros Hs Hf. unfold transcribe. rewrite Hs.
  rewrite transcribe_segments_all_fail by (by apply Forall_forall). done.
Qed.

Lemma all_chunks_fail_empty_job_witness :
  transcribe (λ _ _, Raises) (Some 650000) = JobDone "" "".
Proof.
  apply (all_chunks_fail_empty_job (λ _ _, Raises) 650000
           (make_segment 650000 300000 <$> [0; 1; 2])).
  - vm_compute. reflexivity.
  - intros seg _. by left.
Defined.

(** X20. Nothing is made up: every text kept for the transcript is the
    response for one of the segments, and is not blank; and no more texts
    are kept than there are segments. *)
Theorem kept_transcripts_are_responses (service : string → string → response)
    (segments : list segment) (r : string) :
  r ∈ transcribe_segments service segments →
  (∃ seg, seg ∈ segments ∧
     service (path seg) (get_segment_prompt (start_time seg)) = Returns r ∧
     Py.truthy (Py.strip r) = true) ∧
  (length (transcribe_segments service segments) ≤ length segments)%nat.
Proof.
  intros Hr. split.
  - induction segments as [|seg segments IH]; [by apply elem_of_nil in Hr|].
    rewrite transcribe_segments_cons in Hr.
    apply elem_of_app in Hr as [Hr|Hr].
    + exists seg. split; [by apply elem_of_cons; left|].
      unfold transcribe_segment in Hr.
      destruct (service _ _) as [|r'] eqn:Hs; [by apply elem_of_nil in Hr|].
      destruct (Py.truthy (Py.strip r')) eqn:Ht; [|by apply elem_of_nil in Hr].
      simpl in Hr. by apply list_elem_of_singleton in Hr as ->.
    + destruct (IH Hr) as (seg' & Hin & Hs & Ht).
      exists seg'. split; [by apply elem_of_cons; right|done].
  - clear Hr. induction segments as [|seg segments IH]; [done|].
    rewrite transcribe_segments_cons, length_app. simpl.
    assert (length (transcribe_segment service [] seg) ≤ 1)%nat; [|lia].
    unfold transcribe_segment. destruct (service _ _); [simpl; lia|].
    destruct (Py.truthy _); simpl; lia.
Qed.

Lemma kept_transcripts_are_responses_witness :
  (∃ seg, seg ∈ (make_segment 650000 300000 <$> [0; 1; 2]) ∧
     sample_service (path seg) (get_segment_prompt (start_time seg))
       = Returns "[10:05] three" ∧
     Py.truthy (Py.strip "[10:05] three") = true) ∧
  Nat.le
    (length (transcribe_segments sample_service
               (make_segment 650000 300000 <$> [0; 1; 2])))
    (length (make_segment 650000 300000 <$> [0; 1; 2])).
Proof.
  apply (kept_transcripts_are_responses sample_service
           (make_segment 650000 300000 <$> [0; 1; 2]) "[10:05] three").
  vm_compute. apply list_elem_of_further, list_elem_of_here.
Defined.

(** ** The repetition filter, in full *)

(** X21. [detect_repetition_pattern] returns true in exactly three cases: the
    text is empty; the text without its blanks has more than two characters,
    all the same; or the text has more than two words, all the same.  The
    check on pairs of words adds no case. *)
Theorem detect_repetition_pattern_iff (text : string) :
  detect_repetition_pattern text = true ↔
  text = "" ∨
  (2 < Py.len (Py.remove_char " " text) ∧
   ∃ c, ∀ d, d ∈ Py.to_list (Py.remove_char " " text) → d = c) ∨
  (2 < Z.of_nat (length (Py.split text)) ∧
   ∃ w, ∀ v, v ∈ Py.split text → v = w).
Proof.
  rewrite detect_repetition_pattern_three_checks.
  rewrite !orb_true_iff, !andb_true_iff, !Z.ltb_lt, !one_distinct_spec.
  assert (negb (Py.truthy text) = true ↔ text = "") as ->
    by (by destruct text).
  split.
  - intros [[H|[H (c & _ & Hc)]]|[H (w & _ & Hw)]]; eauto.
  - intros [H|[[H (c & Hc)]|[H (w & Hw)]]]; [by left; left| |].
    + left. right. split; [done|].
      destruct (Py.remove_char " " text) as [|c0 r] eqn:Hr;
        [unfold Py.len in H; simpl in H; lia|].
      exists c. split; [|done].
      rewrite <- (Hc c0) by (by apply elem_of_cons; left).
      by apply elem_of_cons; left.
    + right. split; [done|].
      destruct (Py.split text) as [|w0 r] eqn:Hr; [simpl in H; lia|].
      exists w. split; [|done].
      rewrite <- (Hw w0) by (by apply elem_of_cons; left).
      by apply elem_of_cons; left.
Qed.
